(** * TTS add-on: playback control, process discovery, text preparation

    A shallow embedding of the Python scripts under [tts-addon/]:

    - [tts_gui.py]: [TTSController] (start / pause / resume / stop of one
      [afplay] child process);
    - [voice_interrupt_gui.py]: [VoiceInterruptController] (discovery of audio
      players with [pgrep] and best-effort signalling of all of them);
    - [fast_tts.py]: the text clean-up and truncation of [fast_read];
    - [claude-code-hook.py]: the file-name classifier [should_auto_read].

    The operating system is an interface ([OS]): every theorem of the
    controllers holds for every behaviour of [os.kill], [subprocess.run] and
    [subprocess.Popen].  A small process table ([ProcTable]) instantiates the
    interface so that the controllers can be run on concrete inputs.

    The two windows ([TTSControlGUI], [VoiceInterruptGUI]) are modelled by
    what their callbacks set on the widgets and by the events they answer;
    their monitor threads are not modelled as threads.  The entry points of
    [tts_gui.py] and [claude-code-hook.py] are [TTSControlGUI.main] and
    [HookMain.main].  A second system ([PidRange]) runs the controllers where
    [os.kill] rejects a pid that is no C [int].

    Python text is modelled by [string], one [ascii] per character (code
    points below 256).  Asynchronous interrupts ([KeyboardInterrupt],
    [SystemExit]) and the output of [print] are outside the model. *)

From Stdlib Require Import ZArith String Ascii List Bool Lia DecimalString.
From Stdlib Require DecimalPos.
From stdpp Require Import base option list gmap.
Import ListNotations.

Local Open Scope string_scope.
Local Open Scope Z_scope.

(** ** Python text primitives *)

Module Py.

(** [str.isspace] on one character (code points below 256). *)
Definition isspace (c : ascii) : bool :=
  let n := nat_of_ascii c in
  ((9 <=? n) && (n <=? 13) || (28 <=? n) && (n <=? 32)
   || (n =? 133) || (n =? 160))%nat.

Definition is_empty (s : string) : bool :=
  match s with EmptyString => true | String _ _ => false end.

Fixpoint lstrip (s : string) : string :=
  match s with
  | EmptyString => EmptyString
  | String c s' => if isspace c then lstrip s' else s
  end.

Fixpoint rstrip (s : string) : string :=
  match s with
  | EmptyString => EmptyString
  | String c s' =>
      match rstrip s' with
      | EmptyString => if isspace c then EmptyString else String c EmptyString
      | r => String c r
      end
  end.

(** A text without white space. *)
Fixpoint no_space (s : string) : bool :=
  match s with
  | EmptyString => true
  | String c s' => negb (isspace c) && no_space s'
  end.

(** [s.strip()] *)
Definition strip (s : string) : string := rstrip (lstrip s).

(** [s.split()]: the maximal runs of non-whitespace characters. [tok] is
    the run being read. *)
Fixpoint split_from (tok : string) (s : string) : list string :=
  match s with
  | EmptyString => if is_empty tok then [] else [tok]
  | String c s' =>
      if isspace c
      then (if is_empty tok then split_from EmptyString s'
            else tok :: split_from EmptyString s')
      else split_from (tok ++ String c EmptyString) s'
  end.

Definition split (s : string) : list string := split_from EmptyString s.

(** [s.replace(old, new)] for a non-empty [old]: occurrences are replaced
    from left to right and do not overlap. [skip] counts the characters of
    a matched occurrence that are still to be dropped. *)
Fixpoint replace_from (old new : string) (skip : nat) (s : string) : string :=
  match s with
  | EmptyString => EmptyString
  | String c s' =>
      match skip with
      | S k => replace_from old new k s'
      | O =>
          if String.prefix old s
          then new ++ replace_from old new (String.length old - 1) s'
          else String c (replace_from old new 0 s')
      end
  end.

(** With an empty [old], Python inserts [new] before every character and at
    the end. *)
Fixpoint replace_empty (new : string) (s : string) : string :=
  match s with
  | EmptyString => new
  | String c s' => new ++ String c (replace_empty new s')
  end.

Definition replace (old new s : string) : string :=
  if is_empty old then replace_empty new s else replace_from old new 0 s.

(** [str.lower] on one character: A-Z, and the capital letters of Latin-1
    (0xC0-0xDE without the multiplication sign 0xD7). *)
Definition lower_char (c : ascii) : ascii :=
  let n := nat_of_ascii c in
  if ((65 <=? n) && (n <=? 90)
      || (192 <=? n) && (n <=? 222) && negb (n =? 215))%nat
  then ascii_of_nat (n + 32) else c.

Fixpoint lower (s : string) : string :=
  match s with
  | EmptyString => EmptyString
  | String c s' => String (lower_char c) (lower s')
  end.

(** [needle in hay] *)
Fixpoint contains (needle hay : string) : bool :=
  if String.prefix needle hay then true
  else match hay with
       | EmptyString => false
       | String _ hay' => contains needle hay'
       end.

(** [c * n] for a one-character text [c] *)
Fixpoint repeat (c : ascii) (n : nat) : string :=
  match n with
  | O => EmptyString
  | S n' => String c (repeat c n')
  end.

(** [s[:n]] for [n >= 0] *)
Definition take (n : nat) (s : string) : string := String.substring 0 n s.

Definition digit_value (c : ascii) : option Z :=
  let n := nat_of_ascii c in
  if ((48 <=? n) && (n <=? 57))%nat then Some (Z.of_nat n - 48) else None.

(** The digits of a decimal literal: at least one digit, and single
    underscores only between two digits. [after_digit] tells whether the
    previous character was a digit. *)
Fixpoint digits_from (acc : Z) (after_digit : bool) (s : string) : option Z :=
  match s with
  | EmptyString => if after_digit then Some acc else None
  | String c s' =>
      match digit_value c with
      | Some d => digits_from (10 * acc + d) true s'
      | None =>
          if Ascii.eqb c "_"%char && after_digit
          then digits_from acc false s'
          else None
      end
  end.

(** [int(s)] in base 10; [None] stands for [ValueError]. *)
Definition int (s : string) : option Z :=
  match strip s with
  | String "+"%char r => digits_from 0 false r
  | String "-"%char r => Z.opp <$> digits_from 0 false r
  | r => digits_from 0 false r
  end.

(** The components of a POSIX path, as [pathlib] keeps them: empty
    components and [.] are dropped. [comp] is the component being read. *)
Fixpoint components_from (comp : string) (s : string) : list string :=
  let keep (c : string) (rest : list string) :=
    if is_empty c || String.eqb c "." then rest else c :: rest in
  match s with
  | EmptyString => keep comp []
  | String c s' =>
      if Ascii.eqb c "/"%char
      then keep comp (components_from EmptyString s')
      else components_from (comp ++ String c EmptyString) s'
  end.

(** [Path(p).name]: the last component, or the empty string. *)
Definition path_name (p : string) : string :=
  List.last (components_from EmptyString p) EmptyString.

(** [bool] is a subclass of [int]: [True == 1] and [False == 0]. *)
Definition bool_as_int (b : bool) : Z := if b then 1 else 0.

(** Truth value of an optional integer ([None] and [0] are false). *)
Definition truthy (v : option Z) : bool :=
  match v with
  | None => false
  | Some n => negb (n =? 0)
  end.

End Py.

(** ** Exceptions, system calls and the effect monad *)

(** The exception classes the modelled calls raise. All of them derive from
    [Exception]; the first four derive from [OSError]. *)
Inductive exn :=
  | ProcessLookupError
  | PermissionError
  | FileNotFoundError
  | OSError
  | ValueError
  | OverflowError.

Definition is_OSError (e : exn) : bool :=
  match e with
  | ProcessLookupError | PermissionError | FileNotFoundError | OSError => true
  | ValueError | OverflowError => false
  end.

(** Every modelled class derives from [Exception], so [except Exception] and
    a bare [except] catch the same exceptions here. *)
Definition is_Exception (e : exn) : bool := true.

Inductive signal := SIGSTOP | SIGCONT | SIGTERM.

(** What [subprocess.run(..., capture_output=True, text=True)] returns. *)
Record CompletedProcess := { returncode : Z; stdout : string }.

(** The system calls made, in order. *)
Inductive event :=
  | EvKill (pid : Z) (sig : signal)
  | EvRun (argv : list string)
  | EvPopen (argv : list string).

(** The operating system: each call answers and changes the world;
    [sys_exists] ([os.path.exists]) only reads it. *)
Class OS (World : Type) := {
  sys_kill : Z -> signal -> World -> option exn * World;
  sys_run : list string -> World -> (exn + CompletedProcess) * World;
  sys_popen : list string -> World -> (exn + Z) * World;
  sys_exists : string -> World -> bool
}.

Inductive outcome (A : Type) :=
  | Returns (a : A)
  | Raises (e : exn).
Arguments Returns {A} a.
Arguments Raises {A} e.

Record Env (World : Type) := { world : World; trace : list event }.
Arguments world {World} _.
Arguments trace {World} _.

Definition M (World A : Type) : Type := Env World -> outcome A * Env World.

Definition ret {World A} (a : A) : M World A := fun e => (Returns a, e).

Definition raise {World A} (x : exn) : M World A := fun e => (Raises x, e).

Definition bind {World A B} (m : M World A) (k : A -> M World B) : M World B :=
  fun e =>
    match m e with
    | (Returns a, e') => k a e'
    | (Raises x, e') => (Raises x, e')
    end.

(** [try: m  except <catches>: h] *)
Definition try_except {World A} (m : M World A) (catches : exn -> bool)
    (h : M World A) : M World A :=
  fun e =>
    match m e with
    | (Returns a, e') => (Returns a, e')
    | (Raises x, e') => if catches x then h e' else (Raises x, e')
    end.

Declare Scope py_scope.
Delimit Scope py_scope with py.
Notation "'let!' x ':=' m 'in' k" := (bind m (fun x => k))
  (at level 10, x name, m at level 100, k at level 200) : py_scope.
Notation "'exec' m 'then' k" := (bind m (fun _ => k))
  (at level 10, m at level 100, k at level 200) : py_scope.

(** [for x in l: acc = body x acc] *)
Fixpoint for_in {World A S} (l : list A) (body : A -> S -> M World S) (acc : S)
    : M World S :=
  match l with
  | [] => ret acc
  | x :: l' => bind (body x acc) (for_in l' body)
  end.

(** [[f(x) for x in l]] where [f] may raise. *)
Fixpoint comprehension {World A B} (f : A -> M World B) (l : list A)
    : M World (list B) :=
  match l with
  | [] => ret []
  | x :: l' =>
      bind (f x) (fun y => bind (comprehension f l') (fun ys => ret (y :: ys)))
  end.

Section Calls.
Context {World : Type} `{OS World}.

Definition record_event (ev : event) (w : World) (e : Env World) : Env World :=
  {| world := w; trace := trace e ++ [ev] |}.

(** [os.kill(pid, sig)] *)
Definition os_kill (pid : Z) (sig : signal) : M World unit :=
  fun e =>
    let (r, w) := sys_kill pid sig (world e) in
    (match r with None => Returns tt | Some x => Raises x end,
     record_event (EvKill pid sig) w e).

(** [subprocess.run(argv, capture_output=True, ...)] *)
Definition subprocess_run (argv : list string) : M World CompletedProcess :=
  fun e =>
    let (r, w) := sys_run argv (world e) in
    (match r with inl x => Raises x | inr c => Returns c end,
     record_event (EvRun argv) w e).

(** [subprocess.Popen(argv).pid] *)
Definition subprocess_Popen (argv : list string) : M World Z :=
  fun e =>
    let (r, w) := sys_popen argv (world e) in
    (match r with inl x => Raises x | inr pid => Returns pid end,
     record_event (EvPopen argv) w e).

(** [int(s)] *)
Definition py_int (s : string) : M World Z :=
  match Py.int s with
  | Some n => ret n
  | None => raise ValueError
  end.
End Calls.

(** ** [tts_gui.py]: TTSController *)

(** [process] stands for the [Popen] object that [start_playback] stores (by
    its pid); [__init__] does not set it. *)
Record TTSController := {
  afplay_pid : option Z;
  is_playing : bool;
  is_paused : bool;
  process : option Z
}.

Module TTS.
Section Controller.
Context {World : Type} `{OS World}.
Local Open Scope py_scope.

(** [TTSController.__init__] *)
Definition init : TTSController :=
  {| afplay_pid := None; is_playing := false; is_paused := false;
     process := None |}.

Definition start_playback (self : TTSController) (audio_file : string)
    : M World (bool * TTSController) :=
  try_except
    (let! pid := subprocess_Popen ["afplay"; audio_file] in
     let self := {| afplay_pid := Some pid; is_playing := true;
                    is_paused := false; process := Some pid |} in
     ret (true, self))
    is_Exception
    (ret (false, self)).

Definition pause_playback (self : TTSController)
    : M World (bool * TTSController) :=
  if Py.truthy (afplay_pid self) && is_playing self && negb (is_paused self)
  then
    match afplay_pid self with
    | Some pid =>
        try_except
          (exec os_kill pid SIGSTOP then
           let self := {| afplay_pid := afplay_pid self;
                          is_playing := is_playing self;
                          is_paused := true; process := process self |} in
           ret (true, self))
          (fun _ => true)
          (ret (false, self))
    | None => ret (false, self)
    end
  else ret (false, self).

Definition resume_playback (self : TTSController)
    : M World (bool * TTSController) :=
  if Py.truthy (afplay_pid self) && is_playing self && is_paused self
  then
    match afplay_pid self with
    | Some pid =>
        try_except
          (exec os_kill pid SIGCONT then
           let self := {| afplay_pid := afplay_pid self;
                          is_playing := is_playing self;
                          is_paused := false; process := process self |} in
           ret (true, self))
          (fun _ => true)
          (ret (false, self))
    | None => ret (false, self)
    end
  else ret (false, self).

Definition stop_playback (self : TTSController)
    : M World (bool * TTSController) :=
  if Py.truthy (afplay_pid self)
  then
    match afplay_pid self with
    | Some pid =>
        try_except
          (exec os_kill pid SIGTERM then
           let self := {| afplay_pid := None; is_playing := false;
                          is_paused := false; process := process self |} in
           ret (true, self))
          (fun _ => true)
          (ret (false, self))
    | None => ret (false, self)
    end
  else ret (false, self).

(** The operations a caller can apply to a controller. *)
Inductive op :=
  | Start (audio_file : string)
  | Pause
  | Resume
  | Stop.

Definition call (o : op) (self : TTSController)
    : M World (bool * TTSController) :=
  match o with
  | Start f => start_playback self f
  | Pause => pause_playback self
  | Resume => resume_playback self
  | Stop => stop_playback self
  end.

Definition is_start (o : op) : bool :=
  match o with Start _ => true | _ => false end.

(** A sequence of calls on one controller; the results are dropped. *)
Definition calls (os : list op) (self : TTSController)
    : M World TTSController :=
  for_in os (fun o self => let! r := call o self in ret (snd r)) self.

End Controller.

(** The session states of the specification, read off the fields: [PLAYING]
    and [PAUSED] are the two states in which the guards of
    [pause_playback] and [resume_playback] pass; with no truthy pid no
    session is tracked, and the controller does not tell [IDLE], [STOPPED]
    and [FINISHED] apart. *)
Inductive state := IDLE | PLAYING | PAUSED | STOPPED | FINISHED.

Definition tracked (c : TTSController) : bool :=
  Py.truthy (afplay_pid c) && is_playing c.

Definition in_state (c : TTSController) (s : state) : bool :=
  match s with
  | PLAYING => tracked c && negb (is_paused c)
  | PAUSED => tracked c && is_paused c
  | IDLE | STOPPED | FINISHED => negb (Py.truthy (afplay_pid c))
  end.

(** The fields after a successful [start_playback], [pause_playback],
    [resume_playback] and [stop_playback]. *)
Definition started (pid : Z) : TTSController :=
  {| afplay_pid := Some pid; is_playing := true; is_paused := false;
     process := Some pid |}.

Definition with_paused (b : bool) (c : TTSController) : TTSController :=
  {| afplay_pid := afplay_pid c; is_playing := is_playing c;
     is_paused := b; process := process c |}.

Definition stopped (c : TTSController) : TTSController :=
  {| afplay_pid := None; is_playing := false; is_paused := false;
     process := process c |}.

End TTS.

(** ** [voice_interrupt_gui.py]: VoiceInterruptController *)

Module Voice.
Section Controller.
Context {World : Type} `{OS World}.
Local Open Scope py_scope.

Definition find_audio_processes : M World (list Z) :=
  try_except
    (let! result := subprocess_run ["pgrep"; "afplay"] in
     if returncode result =? 0
     then comprehension (fun pid => py_int (Py.strip pid))
            (List.filter (fun pid => negb (Py.is_empty (Py.strip pid)))
               (Py.split (stdout result)))
     else ret [])
    is_Exception
    (ret []).

(** The loop shared by the three methods:
    [try: os.kill(pid, sig); count += 1  except OSError: pass] *)
Definition signal_and_count (sig : signal) (pid : Z) (count : Z) : M World Z :=
  try_except
    (exec os_kill pid sig then ret (count + 1))
    is_OSError
    (ret count).

Definition stop_all_audio : M World bool :=
  let stopped_count := 0 in
  let! audio_processes := find_audio_processes in
  let! stopped_count :=
    for_in audio_processes (signal_and_count SIGTERM) stopped_count in
  exec
    try_except
      (exec subprocess_run ["killall"; "afplay"] then
       exec subprocess_run ["killall"; "aplay"] then
       exec subprocess_run ["killall"; "paplay"] then
       ret tt)
      (fun _ => true)
      (ret tt)
  then ret (0 <? stopped_count).

Definition pause_all_audio : M World bool :=
  let paused_count := 0 in
  let! audio_processes := find_audio_processes in
  let! paused_count :=
    for_in audio_processes (signal_and_count SIGSTOP) paused_count in
  ret (0 <? paused_count).

Definition resume_all_audio : M World bool :=
  let resumed_count := 0 in
  let! audio_processes := find_audio_processes in
  let! resumed_count :=
    for_in audio_processes (signal_and_count SIGCONT) resumed_count in
  ret (0 <? resumed_count).

(** *** What the methods are compared with *)

(** The pids read from the output of [pgrep]. *)
Definition pgrep_pids (c : CompletedProcess) : list Z :=
  if returncode c =? 0
  then default [] (mapM Py.int (Py.split (stdout c)))
  else [].

(** The discovery seen from the world: the pids found and the world after
    [pgrep] ran. *)
Definition discovery (w : World) : list Z * World :=
  let (r, w') := sys_run ["pgrep"; "afplay"] w in
  (match r with inl _ => [] | inr c => pgrep_pids c end, w').

(** The answer of the system to each signal of a round, in order. *)
Fixpoint attempts (sig : signal) (pids : list Z) (w : World)
    : list (Z * option exn) :=
  match pids with
  | [] => []
  | pid :: rest =>
      let (r, w') := sys_kill pid sig w in (pid, r) :: attempts sig rest w'
  end.

Fixpoint world_after (sig : signal) (pids : list Z) (w : World) : World :=
  match pids with
  | [] => w
  | pid :: rest => world_after sig rest (snd (sys_kill pid sig w))
  end.

(** The pids whose signal did not fail. *)
Definition delivered (l : list (Z * option exn)) : list Z :=
  List.map fst (List.filter (fun a => bool_decide (snd a = None)) l).

(** Every failure of the round is an [OSError]. *)
Definition tolerated (l : list (Z * option exn)) : bool :=
  forallb (fun a => match snd a with Some x => is_OSError x | None => true end) l.

End Controller.
End Voice.

(** ** [fast_tts.py]: the text handed to the speech synthesis *)

Module FastTTS.

(** Lines 51-54 of [fast_read]: the four [replace] calls, in order. *)
Definition clean_for_speech (content : string) : string :=
  let content := Py.replace "```" " code block " content in
  let content := Py.replace "#" "" content in
  let content := Py.replace "*" "" content in
  let content := Py.replace "-" " " content in
  content.

Definition max_chunk_size : nat := 4000.

Definition truncation_marker : string :=
  "... Content truncated for TTS playback.".

(** Lines 60-63 of [fast_read]. *)
Definition truncate_for_tts (content : string) : string :=
  if (max_chunk_size <? String.length content)%nat
  then Py.take max_chunk_size content ++ truncation_marker
  else content.

(** [fast_read] from the text read from the file to the call of
    [client.audio.speech.create]: [Some input] is the [input=] argument of
    the call, [None] means that [fast_read] returned before it (a file of
    white space only). *)
Definition fast_read_input (content : string) : option string :=
  if Py.is_empty (Py.strip content) then None
  else Some (truncate_for_tts (clean_for_speech content)).

End FastTTS.

(** ** [claude-code-hook.py]: the auto-read classifier *)

Module Hook.
Section Classifier.
Context {World : Type} `{OS World}.

Definition auto_read_patterns : list string :=
  [ "implementation-summary"; "summary"; "readme"; "implementation";
    "todo"; "plan"; "requirements" ].

Definition should_auto_read (w : World) (file_path : string) : bool :=
  if Py.is_empty file_path || negb (sys_exists file_path w) then false
  else
    let filename := Py.lower (Py.path_name file_path) in
    existsb (fun pattern => Py.contains pattern filename) auto_read_patterns.

End Classifier.

(** The six keywords of the specification. *)
Definition keywords : list string :=
  [ "summary"; "readme"; "implementation"; "todo"; "plan"; "requirements" ].

End Hook.

(** ** A process table: an executable instance of [OS] *)

Module ProcTable.

Record proc := { exe : string; suspended : bool }.

(** Processes by pid, installed commands, existing paths. *)
Record t := {
  procs : gmap Z proc;
  commands : list string;
  files : list string
}.

Definition with_procs (w : t) (ps : gmap Z proc) : t :=
  {| procs := ps; commands := commands w; files := files w |}.

Definition installed (cmd : string) (w : t) : bool :=
  existsb (String.eqb cmd) (commands w).

Definition pids_of (name : string) (w : t) : list Z :=
  List.filter
    (fun pid =>
       match procs w !! pid with
       | Some p => String.eqb (exe p) name
       | None => false
       end)
    (List.map fst (map_to_list (procs w))).

Definition decimal (n : Z) : string :=
  NilZero.string_of_int (Z.to_int n).

Definition kill (pid : Z) (sig : signal) (w : t) : option exn * t :=
  match procs w !! pid with
  | None => (Some ProcessLookupError, w)
  | Some p =>
      (None,
       match sig with
       | SIGTERM => with_procs w (delete pid (procs w))
       | SIGSTOP =>
           with_procs w (<[pid := {| exe := exe p; suspended := true |}]> (procs w))
       | SIGCONT =>
           with_procs w (<[pid := {| exe := exe p; suspended := false |}]> (procs w))
       end)
  end.

Definition run (argv : list string) (w : t) : (exn + CompletedProcess) * t :=
  match argv with
  | [cmd; name] =>
      if negb (installed cmd w) then (inl FileNotFoundError, w)
      else
        let pids := pids_of name w in
        let code := if decide (pids = []) then 1 else 0 in
        if String.eqb cmd "pgrep" then
          (inr {| returncode := code;
                  stdout := String.concat ""
                              (List.map (fun pid => decimal pid ++ String "010" "") pids) |},
           w)
        else if String.eqb cmd "killall" then
          (inr {| returncode := code; stdout := "" |},
           with_procs w (foldr delete (procs w) pids))
        else (inr {| returncode := 0; stdout := "" |}, w)
  | _ => (inl FileNotFoundError, w)
  end.

Definition fresh_pid (w : t) : Z :=
  1 + foldr Z.max 0 (List.map fst (map_to_list (procs w))).

Definition popen (argv : list string) (w : t) : (exn + Z) * t :=
  match argv with
  | cmd :: _ =>
      if installed cmd w
      then let pid := fresh_pid w in
           (inr pid,
            with_procs w (<[pid := {| exe := cmd; suspended := false |}]> (procs w)))
      else (inl FileNotFoundError, w)
  | [] => (inl ValueError, w)
  end.

Definition exists_ (path : string) (w : t) : bool :=
  existsb (String.eqb path) (files w).

#[export] Instance os : OS t :=
  {| sys_kill := kill; sys_run := run; sys_popen := popen;
     sys_exists := exists_ |}.

(** A machine with the usual commands, no process and no file. *)
Definition empty : t :=
  {| procs := ∅; commands := ["afplay"; "pgrep"; "killall"]; files := [] |}.

(** The same machine running the given [afplay] processes. *)
Definition playing (pids : list Z) : t :=
  with_procs empty
    (list_to_map (List.map (fun pid => (pid, {| exe := "afplay"; suspended := false |})) pids)).

Definition boot (w : t) : Env t := {| world := w; trace := [] |}.

End ProcTable.

(** ** Widgets *)

(** What the scripts set on their [tkinter] widgets. The texts are the
    literals of the source (UTF-8 bytes); they are only compared. *)
Module Tk.

Record Label := { text : string; fg : string }.

(** Tk reports an exception raised by a callback and goes on with the event
    loop: what the callback had changed before stays (here [before]). *)
Definition callback {World A} (m : M World A) (before : A)
    : Env World -> A * Env World :=
  fun e =>
    match m e with
    | (Returns a, e') => (a, e')
    | (Raises _, e') => (before, e')
    end.

(** The callbacks of a list of events, in order. *)
Fixpoint mainloop {World Ev A} (handle : Ev -> A -> Env World -> A * Env World)
    (events : list Ev) (self : A) (e : Env World) : A * Env World :=
  match events with
  | [] => (self, e)
  | ev :: rest => let (self', e') := handle ev self e in mainloop handle rest self' e'
  end.

End Tk.

(** ** [tts_gui.py]: TTSControlGUI *)

(** The window of one playback. The monitor thread of [monitor_playback] is
    not modelled; the callback it schedules, [playback_finished], is an event
    of the window like the clicks. *)
Module TTSControlGUI.

(** The callbacks the play/pause button is bound to. *)
Inductive command := toggle_play_pause_command | restart_playback_command.

Record Button := { btn_text : string; btn_command : command }.

(** [progress]: the progress bar is running; [root]: the window exists. *)
Record t := {
  controller : TTSController;
  audio_file : string;
  filename : string;
  play_pause_btn : Button;
  status_label : Tk.Label;
  progress : bool;
  root : bool
}.

Definition set_controller (c : TTSController) (self : t) : t :=
  {| controller := c; audio_file := audio_file self; filename := filename self;
     play_pause_btn := play_pause_btn self; status_label := status_label self;
     progress := progress self; root := root self |}.

Definition set_play_pause_btn (b : Button) (self : t) : t :=
  {| controller := controller self; audio_file := audio_file self;
     filename := filename self; play_pause_btn := b;
     status_label := status_label self; progress := progress self;
     root := root self |}.

Definition set_status_label (l : Tk.Label) (self : t) : t :=
  {| controller := controller self; audio_file := audio_file self;
     filename := filename self; play_pause_btn := play_pause_btn self;
     status_label := l; progress := progress self; root := root self |}.

Definition set_progress (running : bool) (self : t) : t :=
  {| controller := controller self; audio_file := audio_file self;
     filename := filename self; play_pause_btn := play_pause_btn self;
     status_label := status_label self; progress := running; root := root self |}.

Definition set_root (alive : bool) (self : t) : t :=
  {| controller := controller self; audio_file := audio_file self;
     filename := filename self; play_pause_btn := play_pause_btn self;
     status_label := status_label self; progress := progress self;
     root := alive |}.

(** [btn.config(text=...)] keeps the command. *)
Definition config_text (s : string) (b : Button) : Button :=
  {| btn_text := s; btn_command := btn_command b |}.

Definition pause_text : string := "⏸️ Pause".
Definition resume_text : string := "▶️ Resume".
Definition replay_text : string := "🔄 Replay".
Definition playing_label : Tk.Label := {| Tk.text := "▶️ Playing..."; Tk.fg := "green" |}.
Definition paused_label : Tk.Label := {| Tk.text := "⏸️ Paused"; Tk.fg := "orange" |}.
Definition failed_label : Tk.Label := {| Tk.text := "❌ Playback failed"; Tk.fg := "red" |}.
Definition finished_label : Tk.Label := {| Tk.text := "✅ Finished"; Tk.fg := "blue" |}.

(** [__init__] up to [create_widgets]. *)
Definition create_widgets (audio_file filename : string) : t :=
  {| controller := TTS.init; audio_file := audio_file; filename := filename;
     play_pause_btn := {| btn_text := pause_text;
                          btn_command := toggle_play_pause_command |};
     status_label := playing_label; progress := true; root := true |}.

Section Methods.
Context {World : Type} `{OS World}.
Local Open Scope py_scope.

Definition start_playback (self : t) : M World t :=
  let! r := TTS.start_playback (controller self) (audio_file self) in
  let self := set_controller (snd r) self in
  if fst r then ret (set_status_label playing_label self)
  else ret (set_status_label failed_label self).

Definition toggle_play_pause (self : t) : M World t :=
  if is_paused (controller self)
  then
    let! r := TTS.resume_playback (controller self) in
    let self := set_controller (snd r) self in
    if fst r
    then ret (set_progress true
                (set_status_label playing_label
                   (set_play_pause_btn
                      (config_text pause_text (play_pause_btn self)) self)))
    else ret self
  else
    let! r := TTS.pause_playback (controller self) in
    let self := set_controller (snd r) self in
    if fst r
    then ret (set_progress false
                (set_status_label paused_label
                   (set_play_pause_btn
                      (config_text resume_text (play_pause_btn self)) self)))
    else ret self.

Definition stop_and_close (self : t) : M World t :=
  let! r := TTS.stop_playback (controller self) in
  let self := set_controller (snd r) self in
  ret (set_root false self).

Definition playback_finished (self : t) : t :=
  set_progress false
    (set_play_pause_btn
       {| btn_text := replay_text; btn_command := restart_playback_command |}
       (set_status_label finished_label self)).

Definition restart_playback (self : t) : M World t :=
  let! self := start_playback self in
  ret (set_progress true
         (set_play_pause_btn
            {| btn_text := pause_text;
               btn_command := toggle_play_pause_command |} self)).

(** [__init__], without the monitor thread. *)
Definition init (audio_file filename : string) : M World t :=
  start_playback (create_widgets audio_file filename).

(** What happens to the window: a click on the play/pause button, a click on
    the stop button or on the close box, the scheduled [playback_finished]. *)
Inductive gui_event := ClickPlayPause | ClickStop | PlaybackFinished.

Definition on_event (ev : gui_event) (self : t) : M World t :=
  match ev with
  | ClickPlayPause =>
      match btn_command (play_pause_btn self) with
      | toggle_play_pause_command => toggle_play_pause self
      | restart_playback_command => restart_playback self
      end
  | ClickStop => stop_and_close self
  | PlaybackFinished => ret (playback_finished self)
  end.

(** A destroyed window gets no event. *)
Definition handle (ev : gui_event) (self : t) : Env World -> t * Env World :=
  if root self then Tk.callback (on_event ev self) self
  else fun e => (self, e).

(** [main]: the exit status of [sys.exit], or the window after [__init__]. *)
Definition main (argv : list string) : M World (Z + t) :=
  match argv with
  | [_; audio_file; filename] =>
      fun e =>
        if negb (sys_exists audio_file (world e)) then (Returns (inl 1), e)
        else (let! gui := init audio_file filename in ret (inr gui)) e
  | _ => ret (inl 1)
  end.

End Methods.
End TTSControlGUI.

(** ** [voice_interrupt_gui.py]: VoiceInterruptGUI *)

(** The monitor thread of [monitor_audio] is modelled by its round
    ([MonitorTick]: one discovery and the update of the dot it schedules). *)
Module VoiceInterruptGUI.

Record StopButton := { stop_text : string; stop_bg : string }.

(** [conversation_active] is the field of the controller; [root]: the window
    exists. *)
Record t := {
  conversation_active : bool;
  is_paused : bool;
  status_dot : string;
  status_label : Tk.Label;
  stop_btn : StopButton;
  pause_btn : string;
  root : bool
}.

Definition pause_text : string := "⏸️ Pause".
Definition resume_text : string := "▶️ Resume".

(** [__init__] with [create_widgets]. *)
Definition init : t :=
  {| conversation_active := true; is_paused := false; status_dot := "🔴";
     status_label := {| Tk.text := "Listening..."; Tk.fg := "green" |};
     stop_btn := {| stop_text := "⏹️ STOP"; stop_bg := "#f44336" |};
     pause_btn := pause_text; root := true |}.

Section Methods.
Context {World : Type} `{OS World}.
Local Open Scope py_scope.

Definition emergency_stop (self : t) : M World t :=
  let! success := Voice.stop_all_audio in
  if success
  then ret {| conversation_active := conversation_active self;
              is_paused := is_paused self; status_dot := "🟡";
              status_label := {| Tk.text := "Audio stopped"; Tk.fg := "orange" |};
              stop_btn := {| stop_text := "✅ Stopped"; stop_bg := "#4CAF50" |};
              pause_btn := pause_btn self; root := root self |}
  else ret {| conversation_active := conversation_active self;
              is_paused := is_paused self; status_dot := status_dot self;
              status_label := {| Tk.text := "No audio found"; Tk.fg := "gray" |};
              stop_btn := stop_btn self;
              pause_btn := pause_btn self; root := root self |}.

Definition reset_stop_button (self : t) : t :=
  {| conversation_active := conversation_active self;
     is_paused := is_paused self; status_dot := "🔴";
     status_label := {| Tk.text := "Listening..."; Tk.fg := "green" |};
     stop_btn := {| stop_text := "⏹️ STOP"; stop_bg := "#f44336" |};
     pause_btn := pause_btn self; root := root self |}.

Definition toggle_pause (self : t) : M World t :=
  if is_paused self
  then
    let! success := Voice.resume_all_audio in
    if success
    then ret {| conversation_active := conversation_active self;
                is_paused := false; status_dot := status_dot self;
                status_label := {| Tk.text := "Resumed"; Tk.fg := "green" |};
                stop_btn := stop_btn self;
                pause_btn := pause_text; root := root self |}
    else ret self
  else
    let! success := Voice.pause_all_audio in
    if success
    then ret {| conversation_active := conversation_active self;
                is_paused := true; status_dot := status_dot self;
                status_label := {| Tk.text := "Paused"; Tk.fg := "orange" |};
                stop_btn := stop_btn self;
                pause_btn := resume_text; root := root self |}
    else ret self.

(** One round of [check_audio] with the update it schedules. *)
Definition check_audio (self : t) : M World t :=
  if conversation_active self
  then
    let! processes := Voice.find_audio_processes in
    ret {| conversation_active := conversation_active self;
           is_paused := is_paused self;
           status_dot := match processes with [] => "🔴" | _ :: _ => "🔊" end;
           status_label := status_label self; stop_btn := stop_btn self;
           pause_btn := pause_btn self; root := root self |}
  else ret self.

Definition close_app (self : t) : t :=
  {| conversation_active := false; is_paused := is_paused self;
     status_dot := status_dot self; status_label := status_label self;
     stop_btn := stop_btn self; pause_btn := pause_btn self; root := false |}.

(** The clicks, the two keys bound in [create_widgets], the scheduled
    [reset_stop_button] and the rounds of the monitor. *)
Inductive gui_event :=
  | ClickStop | KeySpace | ClickPause | ClickClose | KeyEscape
  | ResetStopButton | MonitorTick.

Definition on_event (ev : gui_event) (self : t) : M World t :=
  match ev with
  | ClickStop | KeySpace => emergency_stop self
  | ClickPause => toggle_pause self
  | ClickClose | KeyEscape => ret (close_app self)
  | ResetStopButton => ret (reset_stop_button self)
  | MonitorTick => check_audio self
  end.

Definition handle (ev : gui_event) (self : t) : Env World -> t * Env World :=
  if root self then Tk.callback (on_event ev self) self
  else fun e => (self, e).

End Methods.
End VoiceInterruptGUI.

(** ** [claude-code-hook.py]: the entry point *)

(** [fast_tts_path] is [Path(__file__).parent / "fast_tts.py"], fixed by the
    place of the script. *)
Module HookMain.
Section Main.
Context {World : Type} `{OS World}.
Variable fast_tts_path : string.
Local Open Scope py_scope.

Definition auto_tts (file_path : string) : M World unit :=
  try_except
    (fun e =>
       if negb (sys_exists fast_tts_path (world e)) then (Returns tt, e)
       else (exec subprocess_Popen ["python3"; fast_tts_path; file_path]
             then ret tt) e)
    is_Exception
    (ret tt).

Definition main (argv : list string) : M World unit :=
  match argv with
  | _ :: file_path :: _ =>
      fun e =>
        if Hook.should_auto_read (world e) file_path
        then auto_tts file_path e
        else (Returns tt, e)
  | _ => ret tt
  end.

End Main.
End HookMain.

(** ** The system call of each controller method *)

Module TTSCalls.

(** The one system call a method of [TTSController] makes once its guard has
    passed, for the stored pid [pid]. *)
Definition syscall (pid : Z) (o : TTS.op) : event :=
  match o with
  | TTS.Start audio_file => EvPopen ["afplay"; audio_file]
  | TTS.Pause => EvKill pid SIGSTOP
  | TTS.Resume => EvKill pid SIGCONT
  | TTS.Stop => EvKill pid SIGTERM
  end.

End TTSCalls.

(** ** What [pgrep] prints *)

Module Pgrep.

(** The output of [pgrep] for the pids it matched: one decimal pid per line. *)
Definition output (pids : list Z) : string :=
  String.concat "" (List.map (fun pid => ProcTable.decimal pid ++ String "010" "") pids).

End Pgrep.

(** ** What the windows show *)

Module Shows.


(** The interrupt window: the pause button reads Resume exactly when the
    window counts itself paused, and the monitor is active exactly while the
    window exists. *)
Definition interrupt (g : VoiceInterruptGUI.t) : Prop :=
  VoiceInterruptGUI.pause_btn g
  = (if VoiceInterruptGUI.is_paused g then VoiceInterruptGUI.resume_text
     else VoiceInterruptGUI.pause_text)
  /\ VoiceInterruptGUI.conversation_active g = VoiceInterruptGUI.root g.

End Shows.

(** ** A system with C pids: a second executable instance of [OS] *)

(** No process exists, [pgrep] prints the pids [printed], and [os.kill] takes
    its pid as a C [int]: a pid outside of it raises [OverflowError]. *)
Module PidRange.

Record t := { printed : list Z }.

Definition kill (pid : Z) (sig : signal) (w : t) : option exn * t :=
  (Some (if (pid <? - 2 ^ 31) || (2 ^ 31 - 1 <? pid)
         then OverflowError else ProcessLookupError), w).

Definition run (argv : list string) (w : t) : (exn + CompletedProcess) * t :=
  match argv with
  | ["pgrep"; _] =>
      (inr {| returncode := 0; stdout := Pgrep.output (printed w) |}, w)
  | _ => (inl FileNotFoundError, w)
  end.

Definition popen (argv : list string) (w : t) : (exn + Z) * t :=
  (inl FileNotFoundError, w).

Definition exists_ (path : string) (w : t) : bool := false.

#[export] Instance os : OS t :=
  {| sys_kill := kill; sys_run := run; sys_popen := popen;
     sys_exists := exists_ |}.

Definition boot (pids : list Z) : Env t :=
  {| world := {| printed := pids |}; trace := [] |}.

End PidRange.

(** * Properties *)

(** ** TTSController *)

Section TTSFacts.
Context {World : Type} `{OS World}.
Import TTS.

Lemma tracked_pid (c : TTSController) :
  tracked c = true -> exists pid, afplay_pid c = Some pid /\ pid <> 0.
Proof.
  unfold tracked. destruct (afplay_pid c) as [pid|]; simpl; [|discriminate].
  intros Hc. exists pid. split; [reflexivity|].
  apply andb_true_iff in Hc as [Hpid _].
  apply negb_true_iff, Z.eqb_neq in Hpid. exact Hpid.
Qed.

(** Outside [PLAYING], [pause_playback] sends nothing and changes nothing. *)
Lemma pause_playback_refused (self : TTSController) (e : Env World) :
  in_state self PLAYING = false ->
  pause_playback self e = (Returns (false, self), e).
Proof.
  unfold in_state, tracked, pause_playback. intros ->. reflexivity.
Qed.

Lemma resume_playback_refused (self : TTSController) (e : Env World) :
  in_state self PAUSED = false ->
  resume_playback self e = (Returns (false, self), e).
Proof.
  unfold in_state, tracked, resume_playback. intros ->. reflexivity.
Qed.

Lemma stop_playback_refused (self : TTSController) (e : Env World) :
  in_state self IDLE = true ->
  stop_playback self e = (Returns (false, self), e).
Proof.
  unfold in_state, stop_playback. intros Hc.
  apply negb_true_iff in Hc. rewrite Hc. reflexivity.
Qed.

(** In [PLAYING], [pause_playback] sends [SIGSTOP] to the stored pid; the
    answer of the system decides the result. *)
Lemma pause_playback_signals (self : TTSController) (e : Env World) pid :
  in_state self PLAYING = true -> afplay_pid self = Some pid ->
  pause_playback self e
  = (Returns
       (match fst (sys_kill pid SIGSTOP (world e)) with
        | None => (true, with_paused true self)
        | Some _ => (false, self)
        end),
     record_event (EvKill pid SIGSTOP) (snd (sys_kill pid SIGSTOP (world e))) e).
Proof.
  destruct self as [p pl pa pr].
  unfold in_state, tracked, pause_playback, with_paused; simpl.
  intros Hs Hp. subst p. rewrite Hs.
  unfold try_except, bind, os_kill, ret.
  destruct (sys_kill pid SIGSTOP (world e)) as [[x|] w]; reflexivity.
Qed.

Lemma resume_playback_signals (self : TTSController) (e : Env World) pid :
  in_state self PAUSED = true -> afplay_pid self = Some pid ->
  resume_playback self e
  = (Returns
       (match fst (sys_kill pid SIGCONT (world e)) with
        | None => (true, with_paused false self)
        | Some _ => (false, self)
        end),
     record_event (EvKill pid SIGCONT) (snd (sys_kill pid SIGCONT (world e))) e).
Proof.
  destruct self as [p pl pa pr].
  unfold in_state, tracked, resume_playback, with_paused; simpl.
  intros Hs Hp. subst p. rewrite Hs.
  unfold try_except, bind, os_kill, ret.
  destruct (sys_kill pid SIGCONT (world e)) as [[x|] w]; reflexivity.
Qed.

Lemma stop_playback_signals (self : TTSController) (e : Env World) pid :
  afplay_pid self = Some pid -> pid <> 0 ->
  stop_playback self e
  = (Returns
       (match fst (sys_kill pid SIGTERM (world e)) with
        | None => (true, stopped self)
        | Some _ => (false, self)
        end),
     record_event (EvKill pid SIGTERM) (snd (sys_kill pid SIGTERM (world e))) e).
Proof.
  destruct self as [p pl pa pr]. unfold stop_playback, stopped; simpl.
  intros Hp Hpid. subst p. simpl.
  apply Z.eqb_neq in Hpid. rewrite Hpid. simpl.
  unfold try_except, bind, os_kill, ret.
  destruct (sys_kill pid SIGTERM (world e)) as [[x|] w]; reflexivity.
Qed.

(** No method of the controller raises. *)
Lemma call_returns (o : op) (self : TTSController) (e : Env World) :
  exists b self' e', call o self e = (Returns (b, self'), e').
Proof.
  destruct o as [f| | |]; simpl.
  - unfold start_playback, try_except, bind, subprocess_Popen, ret.
    destruct (sys_popen _ _) as [[x|pid] w]; simpl; eauto.
  - destruct (in_state self PLAYING) eqn:Hs.
    + assert (Ht : tracked self = true)
        by (apply andb_true_iff in Hs; tauto).
      destruct (tracked_pid _ Ht) as (pid & Hpid & _).
      rewrite (pause_playback_signals _ _ pid Hs Hpid).
      destruct (fst _); eauto.
    + rewrite pause_playback_refused by assumption. eauto.
  - destruct (in_state self PAUSED) eqn:Hs.
    + assert (Ht : tracked self = true)
        by (apply andb_true_iff in Hs; tauto).
      destruct (tracked_pid _ Ht) as (pid & Hpid & _).
      rewrite (resume_playback_signals _ _ pid Hs Hpid).
      destruct (fst _); eauto.
    + rewrite resume_playback_refused by assumption. eauto.
  - destruct (in_state self IDLE) eqn:Hs.
    + rewrite stop_playback_refused by assumption. eauto.
    + simpl in Hs. apply negb_false_iff in Hs.
      destruct (afplay_pid self) as [pid|] eqn:Hpid; [|discriminate].
      simpl in Hs. apply negb_true_iff, Z.eqb_neq in Hs.
      rewrite (stop_playback_signals _ _ pid Hpid Hs).
      destruct (fst _); eauto.
Qed.

(** The five ways a call can end. *)
Lemma call_cases (o : op) (self : TTSController) (e : Env World) b self' e' :
  call o self e = (Returns (b, self'), e') ->
  (b = false /\ self' = self)
  \/ (b = true /\ exists f pid, o = Start f /\ self' = started pid)
  \/ (b = true /\ o = Pause /\ in_state self PLAYING = true
      /\ self' = with_paused true self)
  \/ (b = true /\ o = Resume /\ in_state self PAUSED = true
      /\ self' = with_paused false self)
  \/ (b = true /\ o = Stop /\ self' = stopped self).
Proof.
  destruct o as [f| | |]; simpl.
  - unfold start_playback, try_except, bind, subprocess_Popen, ret.
    destruct (sys_popen _ _) as [[x|pid] w]; simpl; intros [= <- <- <-].
    + left. split; reflexivity.
    + right; left. split; [reflexivity|]. exists f, pid. split; reflexivity.
  - destruct (in_state self PLAYING) eqn:Hs.
    + assert (Ht : tracked self = true)
        by (apply andb_true_iff in Hs; tauto).
      destruct (tracked_pid _ Ht) as (pid & Hpid & _).
      rewrite (pause_playback_signals _ _ pid Hs Hpid).
      destruct (fst _); intros [= <- <- <-]; [left; tauto|].
      right; right; left. tauto.
    + rewrite pause_playback_refused by assumption.
      intros [= <- <- <-]. left; tauto.
  - destruct (in_state self PAUSED) eqn:Hs.
    + assert (Ht : tracked self = true)
        by (apply andb_true_iff in Hs; tauto).
      destruct (tracked_pid _ Ht) as (pid & Hpid & _).
      rewrite (resume_playback_signals _ _ pid Hs Hpid).
      destruct (fst _); intros [= <- <- <-]; [left; tauto|].
      right; right; right; left. tauto.
    + rewrite resume_playback_refused by assumption.
      intros [= <- <- <-]. left; tauto.
  - destruct (in_state self IDLE) eqn:Hs.
    + rewrite stop_playback_refused by assumption.
      intros [= <- <- <-]. left; tauto.
    + simpl in Hs. apply negb_false_iff in Hs.
      destruct (afplay_pid self) as [pid|] eqn:Hpid; [|discriminate].
      simpl in Hs. apply negb_true_iff, Z.eqb_neq in Hs.
      rewrite (stop_playback_signals _ _ pid Hpid Hs).
      destruct (fst _); intros [= <- <- <-]; [left; tauto|].
      right; right; right; right. tauto.
Qed.

Lemma calls_cons (o : op) (os : list op) (self : TTSController) (e : Env World) :
  calls (o :: os) self e
  = match call o self e with
    | (Returns r, e') => calls os (snd r) e'
    | (Raises x, e') => (Raises x, e')
    end.
Proof.
  unfold calls. simpl. unfold bind, ret.
  destruct (call o self e) as [[r|x] e']; reflexivity.
Qed.

(** A property kept by every call is kept by every sequence of calls, and
    the sequence returns. *)
Lemma calls_preserve (P : TTSController -> Prop) (allowed : op -> Prop) :
  (forall o self e b self' e',
      allowed o -> P self -> call o self e = (Returns (b, self'), e') ->
      P self') ->
  forall os self e,
    Forall allowed os -> P self ->
    exists self' e', calls os self e = (Returns self', e') /\ P self'.
Proof.
  intros Hstep os. induction os as [|o os IH]; intros self e Hall HP.
  - exists self, e. split; [reflexivity | assumption].
  - apply Forall_cons_iff in Hall as [Ho Hall].
    rewrite calls_cons.
    destruct (call_returns o self e) as (b & self1 & e1 & Hcall).
    rewrite Hcall. simpl. apply IH; [assumption|].
    eapply Hstep; eassumption.
Qed.

End TTSFacts.

Section TTSClaims.
Context {World : Type} `{OS World}.
Import TTS.

(** C1 (as amended). For a session in state [PLAYING] (resp. [PAUSED]), if
    the target process no longer exists when [pause_playback] (resp.
    [resume_playback]) sends its signal, the call returns [False] without
    raising and every field of the controller is unchanged: the session
    stays [PLAYING] (resp. [PAUSED]); the one signal sent is recorded. *)
Theorem signal_to_missing_process_keeps_session
    (self : TTSController) (e : Env World) (pid : Z) :
  afplay_pid self = Some pid ->
  (in_state self PLAYING = true ->
   fst (sys_kill pid SIGSTOP (world e)) = Some ProcessLookupError ->
   exists e', pause_playback self e = (Returns (false, self), e')
              /\ trace e' = (trace e ++ [EvKill pid SIGSTOP])%list)
  /\ (in_state self PAUSED = true ->
      fst (sys_kill pid SIGCONT (world e)) = Some ProcessLookupError ->
      exists e', resume_playback self e = (Returns (false, self), e')
                 /\ trace e' = (trace e ++ [EvKill pid SIGCONT])%list).
Proof.
  intros Hpid. split; intros Hs Hkill.
  - rewrite (pause_playback_signals _ _ pid Hs Hpid), Hkill.
    eexists. split; reflexivity.
  - rewrite (resume_playback_signals _ _ pid Hs Hpid), Hkill.
    eexists. split; reflexivity.
Qed.

(** C2. [stop_playback] is idempotent. With no session tracked it is a
    no-op that returns [False]: nothing is sent, nothing changes. From every
    state it returns without raising; when it returns [True] the session is
    stopped and a second call is such a no-op; when it returns [False] the
    controller is unchanged. After it, no sequence of calls without
    [start_playback] (repeated stops among them) raises, and none brings a
    controller that is neither [PLAYING] nor [PAUSED] back to one of
    them. *)
Theorem stop_playback_idempotent (self : TTSController) (e : Env World) :
  (in_state self IDLE = true ->
   stop_playback self e = (Returns (false, self), e))
  /\ exists b self1 e1,
       stop_playback self e = (Returns (b, self1), e1)
       /\ (b = true -> in_state self1 STOPPED = true
                       /\ forall e2, stop_playback self1 e2
                                     = (Returns (false, self1), e2))
       /\ (b = false -> self1 = self)
       /\ forall (os : list op) (e2 : Env World),
            Forall (fun o => is_start o = false) os ->
            exists self2 e3,
              calls os self1 e2 = (Returns self2, e3)
              /\ (in_state self1 PLAYING = false ->
                  in_state self1 PAUSED = false ->
                  in_state self2 PLAYING = false
                  /\ in_state self2 PAUSED = false).
Proof.
  split; [apply stop_playback_refused|].
  destruct (call_returns Stop self e) as (b & self1 & e1 & Hstop).
  simpl in Hstop. exists b, self1, e1. split; [exact Hstop|].
  pose proof (call_cases Stop self e b self1 e1 Hstop) as Hc.
  assert (Hres : b = false /\ self1 = self \/ b = true /\ self1 = stopped self).
  { destruct Hc as [Hc|[(_ & f & p & Hc & _)|[(_ & Hc & _)|[(_ & Hc & _)|Hc]]]];
      try discriminate; tauto. }
  clear Hc. repeat split.
  - destruct Hres as [[-> _]|[_ ->]]; [discriminate | reflexivity].
  - destruct Hres as [[-> _]|[_ ->]]; [discriminate|].
    intros e2. apply stop_playback_refused. reflexivity.
  - destruct Hres as [[_ ->]|[-> _]]; [reflexivity | discriminate].
  - intros os e2 Hos.
    destruct (tracked self1) eqn:Ht.
    + destruct (calls_preserve (fun _ => True) (fun o => is_start o = false))
        with (os := os) (self := self1) (e := e2)
        as (self2 & e3 & Hcalls & _); auto.
      exists self2, e3. split; [exact Hcalls|].
      unfold in_state. rewrite Ht. simpl.
      destruct (is_paused self1); discriminate.
    + destruct (calls_preserve (fun c => tracked c = false)
                  (fun o => is_start o = false))
        with (os := os) (self := self1) (e := e2)
        as (self2 & e3 & Hcalls & Ht2); auto.
      * intros o c e0 b0 c' e0' Ho Hc Hcall.
        destruct (call_cases _ _ _ _ _ _ Hcall)
          as [[_ ->]|[(_ & f & p & -> & _)|[(_ & _ & Hs & _)
              |[(_ & _ & Hs & _)|(_ & _ & ->)]]]];
          try assumption; try discriminate; try reflexivity.
        -- unfold in_state in Hs. rewrite Hc in Hs. discriminate.
        -- unfold in_state in Hs. rewrite Hc in Hs. discriminate.
      * exists self2, e3. split; [exact Hcalls|].
        intros _ _. unfold in_state. rewrite Ht2. split; reflexivity.
Qed.

(** C4. For a session in state [PLAYING] whose process stays alive (both
    signals are delivered), [pause_playback] followed by [resume_playback]
    returns the session to [PLAYING], and the stored pid after the round
    trip is the pid before it; in fact every field is as before. *)
Theorem pause_then_resume_round_trip
    (self : TTSController) (e e1' : Env World) (pid : Z) :
  in_state self PLAYING = true ->
  afplay_pid self = Some pid ->
  fst (sys_kill pid SIGSTOP (world e)) = None ->
  fst (sys_kill pid SIGCONT (world e1')) = None ->
  exists paused e1 self2 e2,
    pause_playback self e = (Returns (true, paused), e1)
    /\ in_state paused PAUSED = true
    /\ resume_playback paused e1' = (Returns (true, self2), e2)
    /\ in_state self2 PLAYING = true
    /\ afplay_pid self2 = afplay_pid self
    /\ self2 = self.
Proof.
  intros Hs Hpid Hstop Hcont.
  assert (Hp : in_state (with_paused true self) PAUSED = true).
  { unfold in_state, tracked in *. simpl.
    apply andb_true_iff in Hs as [-> _]. reflexivity. }
  assert (Hback : with_paused false (with_paused true self) = self).
  { destruct self as [p pl pa pr]. unfold in_state, with_paused in *.
    simpl in *. apply andb_true_iff in Hs as [_ Hpa].
    apply negb_true_iff in Hpa. subst pa. reflexivity. }
  rewrite (pause_playback_signals _ _ pid Hs Hpid), Hstop.
  do 4 eexists. split; [reflexivity|]. split; [exact Hp|].
  rewrite (resume_playback_signals _ e1' pid Hp Hpid), Hcont, Hback.
  repeat split; [exact Hs].
Qed.

(** C5. From [PAUSED], [resume_playback] (its signal delivered) moves the
    session to [PLAYING]; a second [resume_playback] then returns [False],
    sends nothing and changes nothing. In general [pause_playback] outside
    [PLAYING] and [resume_playback] outside [PAUSED] return [False] and
    leave every field of the controller (and the environment) as it was. *)
Theorem pause_resume_illegal_are_noops (self : TTSController) (e : Env World) :
  (forall pid,
      in_state self PAUSED = true -> afplay_pid self = Some pid ->
      fst (sys_kill pid SIGCONT (world e)) = None ->
      exists self1 e1,
        resume_playback self e = (Returns (true, self1), e1)
        /\ in_state self1 PLAYING = true
        /\ forall e2, resume_playback self1 e2 = (Returns (false, self1), e2))
  /\ (in_state self PLAYING = false ->
      pause_playback self e = (Returns (false, self), e))
  /\ (in_state self PAUSED = false ->
      resume_playback self e = (Returns (false, self), e)).
Proof.
  split; [|split; [apply pause_playback_refused | apply resume_playback_refused]].
  intros pid Hs Hpid Hcont.
  rewrite (resume_playback_signals _ _ pid Hs Hpid), Hcont.
  do 2 eexists. split; [reflexivity|].
  assert (Ht : tracked self = true) by (apply andb_true_iff in Hs; tauto).
  split.
  - unfold in_state, tracked in *. simpl. rewrite Ht. reflexivity.
  - intros e2. apply resume_playback_refused.
    unfold in_state. simpl. apply andb_false_r.
Qed.

(** C10. In every state reached from a new controller by any sequence of
    start / pause / resume / stop calls, on any system, [is_paused] implies
    [is_playing] (and a truthy pid): the controller is never paused without
    a tracked playing session. Every such sequence returns. *)
Theorem paused_implies_playing (os : list op) (e : Env World) :
  exists self e',
    calls os init e = (Returns self, e')
    /\ (is_paused self = true ->
        is_playing self = true /\ tracked self = true).
Proof.
  destruct (calls_preserve
              (fun c => is_paused c = true -> tracked c = true)
              (fun _ => True))
    with (os := os) (self := init) (e := e)
    as (self & e' & Hcalls & Hinv).
  - intros o c e0 b c' e0' _ Hc Hcall.
    destruct (call_cases _ _ _ _ _ _ Hcall)
      as [[_ ->]|[(_ & f & p & _ & ->)|[(_ & _ & Hs & ->)
          |[(_ & _ & Hs & ->)|(_ & _ & ->)]]]];
      try assumption; simpl; try discriminate.
    intros _. apply andb_true_iff in Hs as [Ht _]. exact Ht.
  - apply Forall_forall. intros; exact I.
  - discriminate.
  - exists self, e'. split; [exact Hcalls|].
    intros Hp. specialize (Hinv Hp). split; [|exact Hinv].
    apply andb_true_iff in Hinv. tauto.
Qed.

End TTSClaims.

(** ** Text primitives *)

Section TextFacts.

Lemma no_space_snoc (s : string) (c : ascii) :
  Py.no_space s = true -> Py.isspace c = false ->
  Py.no_space (s ++ String c EmptyString) = true.
Proof.
  intros Hs Hc. induction s as [|d s IH]; simpl in *.
  - rewrite Hc. reflexivity.
  - apply andb_true_iff in Hs as [-> Hs]. simpl. auto.
Qed.

(** The tokens of [split] are not empty and hold no white space. *)
Lemma split_from_tokens (s tok : string) :
  Py.no_space tok = true ->
  Forall (fun t => Py.is_empty t = false /\ Py.no_space t = true)
    (Py.split_from tok s).
Proof.
  revert tok. induction s as [|c s IH]; intros tok Htok; simpl.
  - destruct (Py.is_empty tok) eqn:He; auto.
  - destruct (Py.isspace c) eqn:Hc.
    + destruct (Py.is_empty tok) eqn:He; auto.
    + apply IH, no_space_snoc; assumption.
Qed.

Lemma lstrip_no_space (s : string) : Py.no_space s = true -> Py.lstrip s = s.
Proof.
  destruct s as [|c s]; simpl; [reflexivity|].
  intros Hs. apply andb_true_iff in Hs as [Hc _].
  apply negb_true_iff in Hc. rewrite Hc. reflexivity.
Qed.

Lemma rstrip_no_space (s : string) : Py.no_space s = true -> Py.rstrip s = s.
Proof.
  induction s as [|c s IH]; simpl; [reflexivity|].
  intros Hs. apply andb_true_iff in Hs as [Hc Hs].
  apply negb_true_iff in Hc. rewrite (IH Hs), Hc.
  destruct s; reflexivity.
Qed.

Lemma strip_no_space (s : string) : Py.no_space s = true -> Py.strip s = s.
Proof.
  intros Hs. unfold Py.strip. rewrite (lstrip_no_space _ Hs).
  apply rstrip_no_space, Hs.
Qed.

(** On the tokens of [split], the [strip] calls and the filter of the list
    comprehension of [find_audio_processes] do nothing. *)
Lemma split_filter_strip (s : string) :
  List.filter (fun pid => negb (Py.is_empty (Py.strip pid))) (Py.split s)
  = Py.split s
  /\ Forall (fun pid => Py.strip pid = pid) (Py.split s).
Proof.
  pose proof (split_from_tokens s EmptyString eq_refl) as Htok.
  fold (Py.split s) in Htok.
  induction Htok as [|t l [He Hn] _ [IH1 IH2]]; simpl; [auto|].
  rewrite (strip_no_space _ Hn), He. simpl. rewrite IH1.
  split; [reflexivity|]. constructor; [apply strip_no_space, Hn | exact IH2].
Qed.

Lemma length_append (a b : string) :
  String.length (a ++ b) = (String.length a + String.length b)%nat.
Proof. induction a as [|c a IH]; simpl; [reflexivity | rewrite IH; reflexivity]. Qed.

Lemma append_cons (d : ascii) (a b : string) :
  String d a ++ b = String d (a ++ b).
Proof. reflexivity. Qed.

Lemma append_assoc (a b c : string) : (a ++ b) ++ c = a ++ (b ++ c).
Proof.
  induction a as [|d a IH]; [reflexivity|].
  rewrite !append_cons, IH. reflexivity.
Qed.

(** [s[:n]] holds [n] characters when [s] has that many, and starts [s]. *)
Lemma length_take (n : nat) (s : string) :
  (n <= String.length s)%nat -> String.length (Py.take n s) = n.
Proof.
  unfold Py.take. revert s.
  induction n as [|n IH]; intros [|c s]; simpl; try reflexivity; try lia.
  intros Hn. rewrite IH by lia. reflexivity.
Qed.

Lemma prefix_iff (a b : string) :
  String.prefix a b = true <-> exists q, b = a ++ q.
Proof.
  revert b. induction a as [|c a IH]; intros b.
  - destruct b; simpl; split; eauto.
  - destruct b as [|d b]; simpl.
    + split; [discriminate|]. intros [q Hq].
      rewrite append_cons in Hq. discriminate.
    + destruct (ascii_dec c d) as [->|Hne].
      * rewrite IH. split; intros [q Hq]; exists q.
        -- rewrite append_cons. congruence.
        -- rewrite append_cons in Hq. congruence.
      * split; [discriminate|]. intros [q Hq].
        rewrite append_cons in Hq. congruence.
Qed.

Lemma prefix_take (n : nat) (s : string) : String.prefix (Py.take n s) s = true.
Proof.
  unfold Py.take. revert s.
  induction n as [|n IH]; intros [|c s]; simpl; try reflexivity.
  destruct (ascii_dec c c); [apply IH | contradiction].
Qed.

Lemma contains_unfold (needle hay : string) :
  Py.contains needle hay
  = if String.prefix needle hay then true
    else match hay with
         | EmptyString => false
         | String _ hay' => Py.contains needle hay'
         end.
Proof. destruct hay; reflexivity. Qed.

(** [needle in hay] holds exactly when [hay] is some text around [needle]. *)
Lemma contains_iff (needle hay : string) :
  Py.contains needle hay = true <-> exists p q, hay = p ++ needle ++ q.
Proof.
  induction hay as [|c hay IH]; rewrite contains_unfold.
  - destruct (String.prefix needle EmptyString) eqn:Hp.
    + apply prefix_iff in Hp as [q Hq]. split; [|reflexivity].
      intros _. exists EmptyString, q. exact Hq.
    + split; [discriminate|]. intros (p & q & Hpq).
      destruct p; [|discriminate]. simpl in Hpq.
      assert (String.prefix needle EmptyString = true)
        by (apply prefix_iff; eauto).
      congruence.
  - destruct (String.prefix needle (String c hay)) eqn:Hp.
    + apply prefix_iff in Hp as [q Hq]. split; [|reflexivity].
      intros _. exists EmptyString, q. exact Hq.
    + rewrite IH. split.
      * intros (p & q & ->). exists (String c p), q. reflexivity.
      * intros (p & q & Hpq). destruct p as [|d p].
        -- assert (String.prefix needle (String c hay) = true)
             by (apply prefix_iff; eauto).
           congruence.
        -- rewrite append_cons in Hpq. injection Hpq as _ ->. eauto.
Qed.

Lemma contains_trans (a b c : string) :
  Py.contains a b = true -> Py.contains b c = true -> Py.contains a c = true.
Proof.
  rewrite !contains_iff. intros (p & q & ->) (p' & q' & ->).
  exists (p' ++ p), (q ++ q'). rewrite !append_assoc. reflexivity.
Qed.

End TextFacts.

(** ** VoiceInterruptController *)

Section VoiceFacts.
Context {World : Type} `{OS World}.
Import Voice.

Lemma comprehension_py_int (l : list string) (e : Env World) :
  comprehension (fun pid => py_int (Py.strip pid)) l e
  = (match mapM (fun pid => Py.int (Py.strip pid)) l with
     | Some ns => Returns ns
     | None => Raises ValueError
     end, e).
Proof.
  induction l as [|t l IH]; simpl; [reflexivity|].
  unfold bind, py_int at 1.
  destruct (Py.int (Py.strip t)) as [n|]; simpl; [|reflexivity].
  unfold ret at 1. simpl. rewrite IH.
  destruct (mapM _ l); reflexivity.
Qed.

Lemma mapM_int_strip (l : list string) :
  Forall (fun pid => Py.strip pid = pid) l ->
  mapM (fun pid => Py.int (Py.strip pid)) l = mapM Py.int l.
Proof.
  induction 1 as [|t l Ht _ IH]; simpl; [reflexivity|].
  rewrite Ht, IH. reflexivity.
Qed.

(** [find_audio_processes] returns the pids of [discovery], after one call
    of [pgrep]. It never raises. *)
Lemma find_audio_processes_discovery (e : Env World) :
  find_audio_processes e
  = (Returns (fst (discovery (world e))),
     record_event (EvRun ["pgrep"; "afplay"]) (snd (discovery (world e))) e).
Proof.
  unfold find_audio_processes, discovery, try_except, bind, subprocess_run.
  destruct (sys_run _ (world e)) as [[x|c] w]; simpl; [reflexivity|].
  unfold pgrep_pids. destruct (returncode c =? 0); [|reflexivity].
  destruct (split_filter_strip (stdout c)) as [-> Hstrip].
  rewrite comprehension_py_int, (mapM_int_strip _ Hstrip).
  destruct (mapM Py.int _); reflexivity.
Qed.

Lemma delivered_cons (pid : Z) (r : option exn) (l : list (Z * option exn)) :
  Z.of_nat (length (delivered ((pid, r) :: l)))
  = (match r with None => 1 | Some _ => 0 end)
    + Z.of_nat (length (delivered l)).
Proof.
  unfold delivered. simpl. destruct r as [x|]; simpl; lia.
Qed.

(** One round of the loop: a delivered signal counts, an [OSError] is
    dropped, any other exception leaves the loop. *)
Lemma signal_and_count_result (sig : signal) (pid count : Z) (e : Env World) :
  signal_and_count sig pid count e
  = (match fst (sys_kill pid sig (world e)) with
     | None => Returns (count + 1)
     | Some x => if is_OSError x then Returns count else Raises x
     end,
     record_event (EvKill pid sig) (snd (sys_kill pid sig (world e))) e).
Proof.
  unfold signal_and_count, try_except, bind, os_kill, ret.
  destruct (sys_kill pid sig (world e)) as [[x|] w]; simpl; [|reflexivity].
  destruct (is_OSError x); reflexivity.
Qed.

(** The loop of the three methods: the count grows by the number of
    delivered signals, and one [os.kill] per pid is made, in order. *)
Lemma for_in_signal_and_count (sig : signal) (pids : list Z) (count : Z)
    (e : Env World) :
  tolerated (attempts sig pids (world e)) = true ->
  for_in pids (signal_and_count sig) count e
  = (Returns (count + Z.of_nat (length (delivered (attempts sig pids (world e))))),
     {| world := world_after sig pids (world e);
        trace := trace e ++ List.map (fun pid => EvKill pid sig) pids |}).
Proof.
  revert count e. induction pids as [|pid pids IH]; intros count e; simpl.
  - intros _. unfold ret. destruct e. simpl.
    rewrite Z.add_0_r, app_nil_r. reflexivity.
  - unfold bind. rewrite signal_and_count_result.
    destruct (sys_kill pid sig (world e)) as [r w] eqn:Hk. simpl.
    intros Htol. apply andb_true_iff in Htol as [Hr Htol].
    rewrite delivered_cons.
    destruct r as [x|]; simpl in *.
    + rewrite Hr, IH by exact Htol. simpl.
      rewrite <- app_assoc. reflexivity.
    + rewrite IH by exact Htol. simpl.
      rewrite <- app_assoc, Z.add_assoc. reflexivity.
Qed.

Lemma delivered_positive (l : list (Z * option exn)) :
  (0 <? 0 + Z.of_nat (length (delivered l))) = true
  <-> exists pid, In (pid, None) l.
Proof.
  rewrite Z.add_0_l, Z.ltb_lt. unfold delivered. split.
  - induction l as [|[pid [x|]] l IH]; simpl; intros Hl; [lia | |].
    + destruct (IH Hl) as [p Hp]. eauto.
    + eauto.
  - intros [pid Hin]. induction l as [|[q r] l IH]; simpl in *; [tauto|].
    destruct Hin as [[= -> ->]|Hin]; simpl; [lia|].
    specialize (IH Hin). destruct r; simpl; lia.
Qed.

End VoiceFacts.

Section VoiceClaims.
Context {World : Type} `{OS World}.
Import Voice.

(** Discovery, then one signal per pid found, then the rest [k] of the
    method. *)
Lemma signal_round {A} (sig : signal) (k : Z -> M World A) (e : Env World) :
  let pids := fst (discovery (world e)) in
  let w := snd (discovery (world e)) in
  tolerated (attempts sig pids w) = true ->
  bind find_audio_processes
    (fun audio_processes =>
       bind (for_in audio_processes (signal_and_count sig) 0) k) e
  = k (0 + Z.of_nat (length (delivered (attempts sig pids w))))
      {| world := world_after sig pids w;
         trace := (trace e ++ [EvRun ["pgrep"; "afplay"]])
                  ++ List.map (fun pid => EvKill pid sig) pids |}.
Proof.
  intros pids w Htol. unfold bind.
  rewrite find_audio_processes_discovery.
  rewrite for_in_signal_and_count by exact Htol. reflexivity.
Qed.

(** The fallback sweep: [killall afplay] is always attempted; the two other
    sweeps follow as long as no [subprocess.run] raises. The block never
    raises. *)
Lemma sweep_returns (e : Env World) :
  exists rest w,
    try_except
      (bind (subprocess_run ["killall"; "afplay"]) (fun _ =>
       bind (subprocess_run ["killall"; "aplay"]) (fun _ =>
       bind (subprocess_run ["killall"; "paplay"]) (fun _ => ret tt))))
      (fun _ => true) (ret tt) e
    = (Returns tt,
       {| world := w;
          trace := trace e ++ EvRun ["killall"; "afplay"] :: rest |})
    /\ rest `prefix_of`
         [EvRun ["killall"; "aplay"]; EvRun ["killall"; "paplay"]].
Proof.
  unfold try_except, bind, subprocess_run, ret, record_event. simpl.
  destruct (sys_run ["killall"; "afplay"] (world e)) as [[x1|c1] w1]; simpl.
  { exists [], w1. split; [reflexivity | apply prefix_nil]. }
  destruct (sys_run ["killall"; "aplay"] w1) as [[x2|c2] w2]; simpl.
  { eexists [_], w2. rewrite <- app_assoc. split; [reflexivity|].
    exists [EvRun ["killall"; "paplay"]]. reflexivity. }
  destruct (sys_run ["killall"; "paplay"] w2) as [[x3|c3] w3]; simpl;
    (eexists [_; _], w3; rewrite <- !app_assoc; split; [reflexivity|];
     exists []; reflexivity).
Qed.

(** A round in which every signal finds its process gone delivers
    nothing and is tolerated. *)
Lemma all_gone_nothing_delivered (l : list (Z * option exn)) :
  Forall (fun a => snd a = Some ProcessLookupError) l ->
  tolerated l = true /\ delivered l = [].
Proof.
  unfold tolerated, delivered.
  induction 1 as [|[pid r] l Hr _ [IH1 IH2]]; simpl in *; [auto|].
  subst r. simpl. auto.
Qed.

(** The three methods on a tolerated round: the flag returned. *)
Lemma all_audio_results (e : Env World) :
  let pids := fst (discovery (world e)) in
  let w := snd (discovery (world e)) in
  (tolerated (attempts SIGTERM pids w) = true ->
   exists e', stop_all_audio e
              = (Returns (0 <? Z.of_nat (length (delivered (attempts SIGTERM pids w)))), e'))
  /\ (tolerated (attempts SIGSTOP pids w) = true ->
      exists e', pause_all_audio e
                 = (Returns (0 <? Z.of_nat (length (delivered (attempts SIGSTOP pids w)))), e'))
  /\ (tolerated (attempts SIGCONT pids w) = true ->
      exists e', resume_all_audio e
                 = (Returns (0 <? Z.of_nat (length (delivered (attempts SIGCONT pids w)))), e')).
Proof.
  intros pids w. repeat split; intros Htol.
  - unfold stop_all_audio.
    rewrite (signal_round SIGTERM _ e Htol). unfold bind at 1.
    match goal with |- context [try_except ?m ?c ?h ?e0] =>
      destruct (sweep_returns e0) as (rest & w' & Hsweep & _) end.
    rewrite Hsweep. unfold ret. eexists. reflexivity.
  - unfold pause_all_audio.
    rewrite (signal_round SIGSTOP _ e Htol). eexists. reflexivity.
  - unfold resume_all_audio.
    rewrite (signal_round SIGCONT _ e Htol). eexists. reflexivity.
Qed.

(** C3 (as amended). [pause_all_audio] and [resume_all_audio] each discover
    the pids of the audio players, send [SIGSTOP] (resp. [SIGCONT]) to each
    pid found, ignoring the signals that fail with an [OSError], and return
    a boolean: [True] if and only if at least one signal was delivered (the
    count is compared with zero, it is not returned). *)
Theorem pause_resume_all_report_any_delivery (e : Env World) :
  let pids := fst (discovery (world e)) in
  let w := snd (discovery (world e)) in
  (tolerated (attempts SIGSTOP pids w) = true ->
   exists b e',
     pause_all_audio e = (Returns b, e')
     /\ trace e' = (trace e ++ EvRun ["pgrep"; "afplay"]
                      :: List.map (fun pid => EvKill pid SIGSTOP) pids)%list
     /\ b = (0 <? Z.of_nat (length (delivered (attempts SIGSTOP pids w))))
     /\ (b = true <-> exists pid, In (pid, None) (attempts SIGSTOP pids w)))
  /\ (tolerated (attempts SIGCONT pids w) = true ->
      exists b e',
        resume_all_audio e = (Returns b, e')
        /\ trace e' = (trace e ++ EvRun ["pgrep"; "afplay"]
                         :: List.map (fun pid => EvKill pid SIGCONT) pids)%list
        /\ b = (0 <? Z.of_nat (length (delivered (attempts SIGCONT pids w))))
        /\ (b = true <-> exists pid, In (pid, None) (attempts SIGCONT pids w))).
Proof.
  intros pids w. split; intros Htol.
  - unfold pause_all_audio.
    rewrite (signal_round SIGSTOP _ e Htol). unfold ret. do 2 eexists.
    split; [reflexivity|]. simpl. rewrite <- app_assoc.
    split; [reflexivity|]. split; [reflexivity|]. apply delivered_positive.
  - unfold resume_all_audio.
    rewrite (signal_round SIGCONT _ e Htol). unfold ret. do 2 eexists.
    split; [reflexivity|]. simpl. rewrite <- app_assoc.
    split; [reflexivity|]. split; [reflexivity|]. apply delivered_positive.
Qed.

(** C6. [stop_all_audio] sends [SIGTERM] to every pid discovered, going on
    after the signals that fail (with an [OSError]), then attempts the
    sweep [killall afplay] (and [killall aplay], [killall paplay] while no
    sweep raises), and returns [True] if and only if at least one signal
    was delivered. With no pid discovered it returns [False]; it does not
    raise. *)
Theorem stop_all_audio_reports_any_delivery (e : Env World) :
  let pids := fst (discovery (world e)) in
  let w := snd (discovery (world e)) in
  tolerated (attempts SIGTERM pids w) = true ->
  exists b e' rest,
    stop_all_audio e = (Returns b, e')
    /\ trace e' = (trace e ++ EvRun ["pgrep"; "afplay"]
                     :: List.map (fun pid => EvKill pid SIGTERM) pids
                     ++ EvRun ["killall"; "afplay"] :: rest)%list
    /\ rest `prefix_of`
         [EvRun ["killall"; "aplay"]; EvRun ["killall"; "paplay"]]
    /\ (b = true <-> exists pid, In (pid, None) (attempts SIGTERM pids w))
    /\ (pids = [] -> b = false).
Proof.
  intros pids w Htol. unfold stop_all_audio.
  rewrite (signal_round SIGTERM _ e Htol). unfold bind at 1.
  match goal with |- context [try_except ?m ?c ?h ?e0] =>
    destruct (sweep_returns e0) as (rest & w' & Hsweep & Hrest) end.
  rewrite Hsweep. unfold ret.
  exists (0 <? 0 + Z.of_nat (length (delivered (attempts SIGTERM pids w)))).
  eexists. exists rest. split; [reflexivity|]. simpl.
  rewrite <- !app_assoc. split; [reflexivity|]. split; [exact Hrest|].
  split; [apply delivered_positive|].
  fold pids. intros ->. reflexivity.
Qed.

(** C9. [find_audio_processes] never raises and returns the empty list
    whenever the look-up fails ([pgrep] cannot be run, exits with a code
    other than 0, or prints something that is not a number). Signalling a
    pid that does not exist never raises out of a controller method:
    [pause_playback], [resume_playback] and [stop_playback] return [False]
    and leave the controller as it was; the loops of [stop_all_audio],
    [pause_all_audio] and [resume_all_audio] drop the failure and keep
    their count, and these methods return [False] when every process found
    is gone. *)
Theorem missing_process_is_never_a_fault (e : Env World) :
  (exists pids e',
      find_audio_processes e = (Returns pids, e')
      /\ (forall x, fst (sys_run ["pgrep"; "afplay"] (world e)) = inl x ->
          pids = [])
      /\ (forall c, fst (sys_run ["pgrep"; "afplay"] (world e)) = inr c ->
          returncode c <> 0
          \/ (exists tok, In tok (Py.split (stdout c)) /\ Py.int tok = None) ->
          pids = []))
  /\ (forall o self pid,
        TTS.is_start o = false -> afplay_pid self = Some pid ->
        (forall sig, fst (sys_kill pid sig (world e)) = Some ProcessLookupError) ->
        exists e', TTS.call o self e = (Returns (false, self), e'))
  /\ (forall sig pid count,
        fst (sys_kill pid sig (world e)) = Some ProcessLookupError ->
        exists e', signal_and_count sig pid count e = (Returns count, e'))
  /\ (forall sig m,
        In (sig, m) [(SIGTERM, stop_all_audio); (SIGSTOP, pause_all_audio);
                     (SIGCONT, resume_all_audio)] ->
        Forall (fun a => snd a = Some ProcessLookupError)
          (attempts sig (fst (discovery (world e))) (snd (discovery (world e)))) ->
        exists e', m e = (Returns false, e')).
Proof.
  repeat split.
  - do 2 eexists. split; [apply find_audio_processes_discovery|].
    unfold discovery.
    destruct (sys_run _ (world e)) as [[x|c] w]; simpl.
    + split; [reflexivity | discriminate].
    + split; [discriminate|]. intros c' [= <-] Hfail. unfold pgrep_pids.
      destruct Hfail as [Hcode|(tok & Hin & Htok)].
      * apply Z.eqb_neq in Hcode. rewrite Hcode. reflexivity.
      * destruct (returncode c =? 0); [|reflexivity].
        assert (Hnone : mapM Py.int (Py.split (stdout c)) = None).
        { apply mapM_None, Exists_exists. exists tok.
          split; [apply list_elem_of_In, Hin | exact Htok]. }
        rewrite Hnone. reflexivity.
  - intros o self pid Ho Hpid Hgone.
    destruct o as [f| | |]; [discriminate| | |]; simpl.
    + destruct (TTS.in_state self TTS.PLAYING) eqn:Hs.
      * rewrite (pause_playback_signals _ _ pid Hs Hpid), Hgone. eauto.
      * rewrite pause_playback_refused by exact Hs. eauto.
    + destruct (TTS.in_state self TTS.PAUSED) eqn:Hs.
      * rewrite (resume_playback_signals _ _ pid Hs Hpid), Hgone. eauto.
      * rewrite resume_playback_refused by exact Hs. eauto.
    + destruct (TTS.in_state self TTS.IDLE) eqn:Hs.
      * rewrite stop_playback_refused by exact Hs. eauto.
      * simpl in Hs. rewrite Hpid in Hs. simpl in Hs.
        apply negb_false_iff, negb_true_iff, Z.eqb_neq in Hs.
        rewrite (stop_playback_signals _ _ pid Hpid Hs), Hgone. eauto.
  - intros sig pid count Hgone.
    rewrite signal_and_count_result, Hgone. simpl. eauto.
  - intros sig m Hin Hgone.
    destruct (all_gone_nothing_delivered _ Hgone) as [Htol Hnone].
    destruct (all_audio_results e) as (Hstop & Hpause & Hresume).
    simpl in Hin.
    destruct Hin as [[= <- <-]|[[= <- <-]|[[= <- <-]|[]]]].
    + destruct (Hstop Htol) as [e' ->]. rewrite Hnone. eauto.
    + destruct (Hpause Htol) as [e' ->]. rewrite Hnone. eauto.
    + destruct (Hresume Htol) as [e' ->]. rewrite Hnone. eauto.
Qed.

End VoiceClaims.

(** ** [fast_read]: the text submitted to the speech synthesis *)

Section FastTTSClaims.
Import FastTTS.

(** C7 (as amended). For every text that is not blank, [fast_read] submits
    one text to the speech synthesis. The threshold of 4000 characters is
    compared with the length of the cleaned text: when the cleaned text is
    longer, the text submitted is exactly its first 4000 characters
    followed by the truncation marker (4039 characters in all); when the
    cleaned text has at most 4000 characters, it is submitted as it is. *)
Theorem fast_read_truncates_cleaned_text (content : string) :
  Py.is_empty (Py.strip content) = false ->
  let cleaned := clean_for_speech content in
  exists input,
    fast_read_input content = Some input
    /\ ((max_chunk_size < String.length cleaned)%nat ->
        input = Py.take max_chunk_size cleaned ++ truncation_marker
        /\ String.length (Py.take max_chunk_size cleaned) = max_chunk_size
        /\ String.prefix (Py.take max_chunk_size cleaned) cleaned = true
        /\ String.length input = (max_chunk_size + 39)%nat)
    /\ ((String.length cleaned <= max_chunk_size)%nat -> input = cleaned).
Proof.
  intros Hblank cleaned. unfold fast_read_input. rewrite Hblank.
  eexists. split; [reflexivity|]. fold cleaned. unfold truncate_for_tts.
  split; intros Hlen.
  - apply Nat.ltb_lt in Hlen as Hltb. rewrite Hltb.
    assert (Htake : String.length (Py.take max_chunk_size cleaned) = max_chunk_size)
      by (apply length_take; lia).
    repeat split; [exact Htake | apply prefix_take |].
    rewrite length_append, Htake. reflexivity.
  - apply Nat.ltb_ge in Hlen. rewrite Hlen. reflexivity.
Qed.

End FastTTSClaims.

(** ** [should_auto_read] *)

Section HookClaims.
Context {World : Type} `{OS World}.
Import Hook.

Lemma patterns_keywords (filename : string) :
  existsb (fun pattern => Py.contains pattern filename) auto_read_patterns
  = existsb (fun keyword => Py.contains keyword filename) keywords.
Proof.
  unfold auto_read_patterns, keywords. cbn [existsb].
  destruct (Py.contains "implementation-summary" filename) eqn:Hc;
    [|reflexivity].
  rewrite (contains_trans "summary" "implementation-summary" filename);
    [reflexivity | reflexivity | exact Hc].
Qed.

(** C8 (as amended). [should_auto_read] accepts a path if and only if the
    path exists ([os.path.exists]) and its lowercased file name contains
    one of the keywords summary, readme, implementation, todo, plan,
    requirements. So [IMPLEMENTATION-SUMMARY.md] is accepted where it
    exists, and [notes.txt] never is. *)
Theorem should_auto_read_iff (w : World) (file_path : string) :
  (should_auto_read w file_path = true
   <-> sys_exists file_path w = true
       /\ exists keyword,
            In keyword keywords
            /\ Py.contains keyword (Py.lower (Py.path_name file_path)) = true)
  /\ (sys_exists "IMPLEMENTATION-SUMMARY.md" w = true ->
      should_auto_read w "IMPLEMENTATION-SUMMARY.md" = true)
  /\ should_auto_read w "notes.txt" = false.
Proof.
  split; [split | split].
  - unfold should_auto_read. intros Hs.
    destruct (sys_exists file_path w);
      [|rewrite orb_true_r in Hs; discriminate].
    split; [reflexivity|].
    destruct (Py.is_empty file_path); [discriminate|].
    cbn [orb negb] in Hs. rewrite patterns_keywords in Hs.
    apply existsb_exists in Hs as (k & Hin & Hk). eauto.
  - intros (Hexists & k & Hin & Hk). unfold should_auto_read.
    destruct file_path as [|c p].
    + simpl in Hin.
      repeat (destruct Hin as [<-|Hin]; [discriminate Hk|]). destruct Hin.
    + rewrite Hexists. cbn [Py.is_empty orb negb].
      rewrite patterns_keywords. apply existsb_exists. eauto.
  - intros Hexists. unfold should_auto_read. rewrite Hexists. reflexivity.
  - unfold should_auto_read.
    destruct (Py.is_empty "notes.txt" || negb (sys_exists "notes.txt" w));
      reflexivity.
Qed.

End HookClaims.

(** * The controllers on the process table *)

Section Runs.
Import TTS Voice FastTTS Hook ProcTable.

(** With no process 5 on the machine, pausing a [PLAYING] controller that
    tracks pid 5 and resuming a [PAUSED] one both return [False] and keep
    the controller. *)
Lemma signal_to_missing_process_keeps_session_witness :
  let playing5 := started 5 in
  let paused5 := with_paused true (started 5) in
  let e := boot empty in
  (exists e', pause_playback playing5 e = (Returns (false, playing5), e')
              /\ trace e' = (trace e ++ [EvKill 5 SIGSTOP])%list)
  /\ (exists e', resume_playback paused5 e = (Returns (false, paused5), e')
                 /\ trace e' = (trace e ++ [EvKill 5 SIGCONT])%list).
Proof.
  split.
  - apply (proj1 (signal_to_missing_process_keeps_session
                    (started 5) (boot empty) 5 eq_refl)); reflexivity.
  - apply (proj2 (signal_to_missing_process_keeps_session
                    (with_paused true (started 5)) (boot empty) 5 eq_refl));
      reflexivity.
Defined.

(** C1 fails as stated: the process of a [PLAYING] session is gone, the
    signal fails with [ProcessLookupError], and yet [pause_playback] returns
    [False] (it does not raise) and the controller is still [PLAYING], not
    [FINISHED]. The same holds for [resume_playback] from [PAUSED]. *)
Lemma pause_of_missing_process_is_not_finished :
  let playing5 := started 5 in
  let paused5 := with_paused true (started 5) in
  let e := boot empty in
  in_state playing5 PLAYING = true
  /\ fst (sys_kill 5 SIGSTOP (world e)) = Some ProcessLookupError
  /\ fst (pause_playback playing5 e) = Returns (false, playing5)
  /\ in_state playing5 FINISHED = false
  /\ in_state paused5 PAUSED = true
  /\ fst (sys_kill 5 SIGCONT (world e)) = Some ProcessLookupError
  /\ fst (resume_playback paused5 e) = Returns (false, paused5)
  /\ in_state paused5 FINISHED = false.
Proof. vm_compute. repeat split; reflexivity. Qed.

Lemma stop_playback_idempotent_witness :
  let e := boot (playing [1]) in
  in_state init IDLE = true
  /\ stop_playback init e = (Returns (false, init), e)
  /\ exists b self1 e1,
       stop_playback (started 1) e = (Returns (b, self1), e1)
       /\ exists self2 e3,
            calls [Stop; Pause; Resume; Stop] self1 e1 = (Returns self2, e3)
            /\ in_state self2 PLAYING = false
            /\ in_state self2 PAUSED = false.
Proof.
  split; [reflexivity|]. split.
  - apply (proj1 (stop_playback_idempotent init (boot (playing [1]))));
      reflexivity.
  - destruct (proj2 (stop_playback_idempotent (started 1) (boot (playing [1]))))
      as (b & self1 & e1 & Hstop & _ & _ & Hcalls).
    destruct (Hcalls [Stop; Pause; Resume; Stop] e1)
      as (self2 & e3 & Hc & Hstay); [repeat constructor|].
    exists b, self1, e1. split; [exact Hstop|].
    exists self2, e3. split; [exact Hc|].
    vm_compute in Hstop. injection Hstop as _ <- _.
    apply Hstay; reflexivity.
Defined.

Lemma pause_then_resume_round_trip_witness :
  let self := started 1 in
  let e := boot (playing [1]) in
  let e1' := snd (pause_playback self e) in
  in_state self PLAYING = true
  /\ afplay_pid self = Some 1
  /\ fst (sys_kill 1 SIGSTOP (world e)) = None
  /\ fst (sys_kill 1 SIGCONT (world e1')) = None
  /\ exists paused e1 self2 e2,
       pause_playback self e = (Returns (true, paused), e1)
       /\ in_state paused PAUSED = true
       /\ resume_playback paused e1' = (Returns (true, self2), e2)
       /\ in_state self2 PLAYING = true
       /\ afplay_pid self2 = afplay_pid self
       /\ self2 = self.
Proof.
  repeat (split; [vm_compute; reflexivity|]).
  apply (pause_then_resume_round_trip (started 1) (boot (playing [1]))
           (snd (pause_playback (started 1) (boot (playing [1])))) 1);
    vm_compute; reflexivity.
Defined.

Lemma pause_resume_illegal_are_noops_witness :
  let paused1 := with_paused true (started 1) in
  let e := boot (playing [1]) in
  (exists self1 e1,
      resume_playback paused1 e = (Returns (true, self1), e1)
      /\ in_state self1 PLAYING = true
      /\ forall e2, resume_playback self1 e2 = (Returns (false, self1), e2))
  /\ pause_playback init e = (Returns (false, init), e)
  /\ resume_playback (started 1) e = (Returns (false, started 1), e).
Proof.
  split; [|split].
  - apply (proj1 (pause_resume_illegal_are_noops
                    (with_paused true (started 1)) (boot (playing [1]))) 1);
      vm_compute; reflexivity.
  - apply (proj1 (proj2 (pause_resume_illegal_are_noops
                           init (boot (playing [1]))))); reflexivity.
  - apply (proj2 (proj2 (pause_resume_illegal_are_noops
                           (started 1) (boot (playing [1]))))); reflexivity.
Defined.

Lemma paused_implies_playing_witness :
  exists self e',
    calls [Start "notes.mp3"; Pause] init (boot empty) = (Returns self, e')
    /\ is_paused self = true
    /\ is_playing self = true
    /\ tracked self = true.
Proof.
  destruct (paused_implies_playing [Start "notes.mp3"; Pause] (boot empty))
    as (self & e' & Hcalls & Hinv).
  exists self, e'. split; [exact Hcalls|].
  vm_compute in Hcalls. injection Hcalls as <- _.
  split; [reflexivity|]. apply Hinv. reflexivity.
Defined.

Lemma pause_resume_all_report_any_delivery_witness :
  let e := boot (playing [7; 12]) in
  let pids := fst (discovery (world e)) in
  let w := snd (discovery (world e)) in
  tolerated (attempts SIGSTOP pids w) = true
  /\ tolerated (attempts SIGCONT pids w) = true
  /\ (exists b e',
        pause_all_audio e = (Returns b, e')
        /\ trace e' = (trace e ++ EvRun ["pgrep"; "afplay"]
                         :: List.map (fun pid => EvKill pid SIGSTOP) pids)%list
        /\ b = (0 <? Z.of_nat (length (delivered (attempts SIGSTOP pids w))))
        /\ (b = true <-> exists pid, In (pid, None) (attempts SIGSTOP pids w)))
  /\ (exists b e',
        resume_all_audio e = (Returns b, e')
        /\ trace e' = (trace e ++ EvRun ["pgrep"; "afplay"]
                         :: List.map (fun pid => EvKill pid SIGCONT) pids)%list
        /\ b = (0 <? Z.of_nat (length (delivered (attempts SIGCONT pids w))))
        /\ (b = true <-> exists pid, In (pid, None) (attempts SIGCONT pids w))).
Proof.
  split; [vm_compute; reflexivity|]. split; [vm_compute; reflexivity|].
  split.
  - apply (proj1 (pause_resume_all_report_any_delivery (boot (playing [7; 12]))));
      vm_compute; reflexivity.
  - apply (proj2 (pause_resume_all_report_any_delivery (boot (playing [7; 12]))));
      vm_compute; reflexivity.
Defined.

(** C3 fails as stated: with two players running, both signals are
    delivered, so two processes are affected, and [pause_all_audio] and
    [resume_all_audio] return [True], which is the integer 1, not 2. *)
Lemma pause_all_audio_returns_flag_not_count :
  let e := boot (playing [7; 12]) in
  let pids := fst (discovery (world e)) in
  let w := snd (discovery (world e)) in
  delivered (attempts SIGSTOP pids w) = [7; 12]
  /\ fst (pause_all_audio e) = Returns true
  /\ delivered (attempts SIGCONT pids w) = [7; 12]
  /\ fst (resume_all_audio e) = Returns true
  /\ Py.bool_as_int true <> Z.of_nat (length [7; 12]).
Proof. vm_compute. repeat split; try reflexivity. discriminate. Qed.

Lemma stop_all_audio_reports_any_delivery_witness :
  let e := boot (playing [7; 12]) in
  let pids := fst (discovery (world e)) in
  let w := snd (discovery (world e)) in
  tolerated (attempts SIGTERM pids w) = true
  /\ exists b e' rest,
       stop_all_audio e = (Returns b, e')
       /\ trace e' = (trace e ++ EvRun ["pgrep"; "afplay"]
                        :: List.map (fun pid => EvKill pid SIGTERM) pids
                        ++ EvRun ["killall"; "afplay"] :: rest)%list
       /\ rest `prefix_of`
            [EvRun ["killall"; "aplay"]; EvRun ["killall"; "paplay"]]
       /\ (b = true <-> exists pid, In (pid, None) (attempts SIGTERM pids w))
       /\ (pids = [] -> b = false).
Proof.
  split; [vm_compute; reflexivity|].
  apply (stop_all_audio_reports_any_delivery (boot (playing [7; 12]))).
  vm_compute; reflexivity.
Defined.

(** A machine without [pgrep], and a controller whose process 5 is gone. *)
Lemma missing_process_is_never_a_fault_witness :
  let bare := {| procs := ∅; commands := []; files := [] |} in
  let e := boot bare in
  fst (sys_run ["pgrep"; "afplay"] (world e)) = inl FileNotFoundError
  /\ fst (find_audio_processes e) = Returns []
  /\ (forall sig, fst (sys_kill 5 sig (world e)) = Some ProcessLookupError)
  /\ (exists e', stop_playback (started 5) e = (Returns (false, started 5), e'))
  /\ (exists e', signal_and_count SIGTERM 5 0 e = (Returns 0, e'))
  /\ (exists e', stop_all_audio e = (Returns false, e')).
Proof.
  pose (bare := {| procs := ∅; commands := []; files := [] |}).
  destruct (missing_process_is_never_a_fault (boot bare))
    as ((pids & e' & Hfind & Hraise & _) & Hcall & Hround & Hall).
  assert (Hgone : forall sig,
             fst (sys_kill 5 sig (world (boot bare))) = Some ProcessLookupError)
    by (intros sig; reflexivity).
  split; [reflexivity|]. split; [|split; [exact Hgone|split; [|split]]].
  - fold bare. rewrite Hfind. simpl.
    rewrite (Hraise FileNotFoundError eq_refl). reflexivity.
  - apply (Hcall Stop (started 5) 5 eq_refl eq_refl Hgone).
  - apply (Hround SIGTERM 5 0 (Hgone SIGTERM)).
  - apply (Hall SIGTERM stop_all_audio); [left; reflexivity | constructor].
Defined.

(** A text of 5000 characters is cut to 4000 and the marker. *)
Lemma fast_read_truncates_cleaned_text_witness :
  let content := Py.repeat "a" 5000 in
  let cleaned := clean_for_speech content in
  Py.is_empty (Py.strip content) = false
  /\ exists input,
       fast_read_input content = Some input
       /\ ((max_chunk_size < String.length cleaned)%nat ->
           input = Py.take max_chunk_size cleaned ++ truncation_marker
           /\ String.length (Py.take max_chunk_size cleaned) = max_chunk_size
           /\ String.prefix (Py.take max_chunk_size cleaned) cleaned = true
           /\ String.length input = (max_chunk_size + 39)%nat)
       /\ ((String.length cleaned <= max_chunk_size)%nat -> input = cleaned).
Proof.
  split; [vm_compute; reflexivity|].
  apply (fast_read_truncates_cleaned_text (Py.repeat "a" 5000)).
  vm_compute; reflexivity.
Defined.

(** C7 fails as stated. A text of 4001 characters whose clean-up drops one
    [#] is submitted whole, without the marker; a text of 3993 characters
    whose clean-up expands a code fence to 4002 characters is cut, although
    the input is below the threshold. *)
Lemma fast_read_threshold_is_on_cleaned_text :
  let long := String "#" (Py.repeat "a" 4000) in
  let short := "```" ++ Py.repeat "a" 3990 in
  String.length long = 4001%nat
  /\ fast_read_input long = Some (Py.repeat "a" 4000)
  /\ fast_read_input long
     <> Some (Py.take 4000 (clean_for_speech long) ++ truncation_marker)
  /\ String.length short = 3993%nat
  /\ fast_read_input short
     = Some (Py.take 4000 (clean_for_speech short) ++ truncation_marker)
  /\ fast_read_input short <> Some (clean_for_speech short).
Proof.
  vm_compute. repeat split; try reflexivity; discriminate.
Qed.

Lemma should_auto_read_iff_witness :
  let w := {| procs := ∅; commands := [];
              files := ["IMPLEMENTATION-SUMMARY.md"] |} in
  sys_exists "IMPLEMENTATION-SUMMARY.md" w = true
  /\ should_auto_read w "IMPLEMENTATION-SUMMARY.md" = true
  /\ should_auto_read w "notes.txt" = false
  /\ exists keyword,
       In keyword keywords
       /\ Py.contains keyword
            (Py.lower (Py.path_name "IMPLEMENTATION-SUMMARY.md")) = true.
Proof.
  pose (w := {| procs := ∅; commands := [];
                files := ["IMPLEMENTATION-SUMMARY.md"] |}).
  destruct (should_auto_read_iff w "IMPLEMENTATION-SUMMARY.md")
    as (Hiff & Hsummary & Hnotes).
  split; [reflexivity|]. split; [apply Hsummary; reflexivity|].
  split; [exact Hnotes|].
  apply Hiff, Hsummary. reflexivity.
Defined.

(** C8 fails as stated: the lowercased name of [README.md] contains the
    keyword readme, but the path does not exist and is not accepted. *)
Lemma should_auto_read_rejects_missing_file :
  Py.contains "readme" (Py.lower (Py.path_name "README.md")) = true
  /\ In "readme" keywords
  /\ sys_exists "README.md" empty = false
  /\ should_auto_read empty "README.md" = false.
Proof. vm_compute. repeat split; try reflexivity. tauto. Qed.

End Runs.

(** * Further properties *)

(** ** TTSController: system calls and life cycle *)

Section TTSFurther.
Context {World : Type} `{OS World}.
Import TTS.

(** With no truthy pid, the three signalling methods do nothing. *)
Lemma call_without_pid (o : op) (self : TTSController) (e : Env World) :
  is_start o = false -> Py.truthy (afplay_pid self) = false ->
  call o self e = (Returns (false, self), e).
Proof.
  intros Ho Hpid. destruct o as [f| | |]; [discriminate| | |]; simpl.
  - apply pause_playback_refused. unfold in_state, tracked. rewrite Hpid. reflexivity.
  - apply resume_playback_refused. unfold in_state, tracked. rewrite Hpid. reflexivity.
  - apply stop_playback_refused. unfold in_state. rewrite Hpid. reflexivity.
Qed.

(** With pid [p] stored, a signalling method either refuses (no system call,
    nothing changed) or makes its one call on [p]; the pid stays or is
    dropped. *)
Lemma call_frame (o : op) (self : TTSController) (e : Env World) (p : Z) :
  is_start o = false -> afplay_pid self = Some p ->
  exists b self' e',
    call o self e = (Returns (b, self'), e')
    /\ (e' = e /\ self' = self
        \/ trace e' = (trace e ++ [TTSCalls.syscall p o])%list)
    /\ (afplay_pid self' = Some p \/ afplay_pid self' = None).
Proof.
  intros Ho Hp. destruct o as [f| | |]; [discriminate| | |]; simpl.
  - destruct (in_state self PLAYING) eqn:Hs.
    + rewrite (pause_playback_signals _ _ p Hs Hp).
      destruct (fst _); do 3 eexists; (split; [reflexivity|]);
        (split; [right; reflexivity | left; exact Hp]).
    + rewrite pause_playback_refused by exact Hs.
      do 3 eexists. split; [reflexivity|]. split; [left; tauto | left; exact Hp].
  - destruct (in_state self PAUSED) eqn:Hs.
    + rewrite (resume_playback_signals _ _ p Hs Hp).
      destruct (fst _); do 3 eexists; (split; [reflexivity|]);
        (split; [right; reflexivity | left; exact Hp]).
    + rewrite resume_playback_refused by exact Hs.
      do 3 eexists. split; [reflexivity|]. split; [left; tauto | left; exact Hp].
  - destruct (in_state self IDLE) eqn:Hs.
    + rewrite stop_playback_refused by exact Hs.
      do 3 eexists. split; [reflexivity|]. split; [left; tauto | left; exact Hp].
    + simpl in Hs. rewrite Hp in Hs. simpl in Hs.
      apply negb_false_iff, negb_true_iff, Z.eqb_neq in Hs.
      rewrite (stop_playback_signals _ _ p Hp Hs).
      destruct (fst _); do 3 eexists; (split; [reflexivity|]).
      * split; [right; reflexivity | left; exact Hp].
      * split; [right; reflexivity | right; reflexivity].
Qed.

Lemma calls_without_pid (os : list op) (self : TTSController) (e : Env World) :
  Forall (fun o => is_start o = false) os ->
  Py.truthy (afplay_pid self) = false ->
  calls os self e = (Returns self, e).
Proof.
  induction 1 as [|o os Ho _ IH]; intros Hpid; [reflexivity|].
  rewrite calls_cons, (call_without_pid o self e Ho Hpid). simpl.
  apply IH, Hpid.
Qed.

(** X1. A sequence of pause / resume / stop calls only ever signals the pid
    the controller stored before it: the system calls made are, in order,
    the calls of some of the methods on that pid, and nothing else. With no
    pid stored the sequence makes no system call and changes nothing. *)
Theorem calls_signal_only_stored_pid
    (os : list op) (self : TTSController) (e : Env World) :
  Forall (fun o => is_start o = false) os ->
  (forall p, afplay_pid self = Some p ->
     exists self' e' sent,
       calls os self e = (Returns self', e')
       /\ sent `sublist_of` os
       /\ trace e' = (trace e ++ List.map (TTSCalls.syscall p) sent)%list
       /\ (afplay_pid self' = Some p \/ afplay_pid self' = None))
  /\ (Py.truthy (afplay_pid self) = false ->
      calls os self e = (Returns self, e)).
Proof.
  intros Hos. split; [|apply calls_without_pid, Hos].
  revert self e. induction Hos as [|o os Ho Hos IH]; intros self e p Hp.
  - exists self, e, []. split; [reflexivity|]. split; [constructor|].
    split; [|left; exact Hp]. simpl. rewrite app_nil_r. reflexivity.
  - rewrite calls_cons.
    destruct (call_frame o self e p Ho Hp)
      as (b & self1 & e1 & -> & Hframe & Hpid). simpl.
    assert (Hrest : exists self' e' sent,
               calls os self1 e1 = (Returns self', e')
               /\ sent `sublist_of` os
               /\ trace e' = (trace e1 ++ List.map (TTSCalls.syscall p) sent)%list
               /\ (afplay_pid self' = Some p \/ afplay_pid self' = None)).
    { destruct Hpid as [Hp1|Hnone]; [apply IH, Hp1|].
      exists self1, e1, []. rewrite (calls_without_pid os self1 e1 Hos)
        by (rewrite Hnone; reflexivity).
      split; [reflexivity|]. split; [apply sublist_nil_l|].
      split; [|right; exact Hnone]. simpl. rewrite app_nil_r. reflexivity. }
    destruct Hrest as (self' & e' & sent & Hcalls & Hsub & Htrace & Hpid').
    destruct Hframe as [[-> ->]|Hsent].
    + exists self', e', sent. split; [exact Hcalls|].
      split; [apply sublist_cons, Hsub|]. split; assumption.
    + exists self', e', (o :: sent). split; [exact Hcalls|].
      split; [apply sublist_skip, Hsub|]. split; [|exact Hpid'].
      rewrite Htrace, Hsent. simpl. rewrite <- app_assoc. reflexivity.
Qed.

(** X2. The life cycle of a session, on any system on which the player is
    spawned (with a pid other than 0) and the three signals are delivered:
    start, pause, resume and stop each return [True], the session goes
    through [PLAYING], [PAUSED], [PLAYING] and [STOPPED], the system calls
    are exactly the spawn and the three signals on the pid spawned, and a
    pause after the stop returns [False]. *)
Theorem session_life_cycle (audio_file : string) (e : Env World) (pid : Z)
    (w1 w2 w3 w4 : World) :
  pid <> 0 ->
  sys_popen ["afplay"; audio_file] (world e) = (inr pid, w1) ->
  sys_kill pid SIGSTOP w1 = (None, w2) ->
  sys_kill pid SIGCONT w2 = (None, w3) ->
  sys_kill pid SIGTERM w3 = (None, w4) ->
  exists c1 e1 c2 e2 c3 e3 c4 e4,
    start_playback init audio_file e = (Returns (true, c1), e1)
    /\ in_state c1 PLAYING = true
    /\ pause_playback c1 e1 = (Returns (true, c2), e2)
    /\ in_state c2 PAUSED = true
    /\ resume_playback c2 e2 = (Returns (true, c3), e3)
    /\ in_state c3 PLAYING = true
    /\ stop_playback c3 e3 = (Returns (true, c4), e4)
    /\ in_state c4 STOPPED = true
    /\ pause_playback c4 e4 = (Returns (false, c4), e4)
    /\ e4 = {| world := w4;
               trace := (trace e ++ [EvPopen ["afplay"; audio_file];
                                      EvKill pid SIGSTOP; EvKill pid SIGCONT;
                                      EvKill pid SIGTERM])%list |}.
Proof.
  intros Hpid Hspawn Hstop Hcont Hterm.
  assert (Htruthy : Py.truthy (Some pid) = true)
    by (simpl; apply negb_true_iff, Z.eqb_neq, Hpid).
  assert (Hplaying : in_state (started pid) PLAYING = true)
    by (unfold in_state, tracked; simpl in *; rewrite Htruthy; reflexivity).
  assert (Hpaused : in_state (with_paused true (started pid)) PAUSED = true)
    by (unfold in_state, tracked; simpl in *; rewrite Htruthy; reflexivity).
  exists (started pid). eexists. exists (with_paused true (started pid)).
  eexists. exists (started pid). eexists. exists (stopped (started pid)).
  eexists.
  split.
  { unfold start_playback, try_except, bind, subprocess_Popen, ret.
    rewrite Hspawn. reflexivity. }
  split; [exact Hplaying|]. split.
  { rewrite (pause_playback_signals (started pid) _ pid Hplaying eq_refl).
    simpl. rewrite Hstop. reflexivity. }
  split; [exact Hpaused|]. split.
  { rewrite (resume_playback_signals (with_paused true (started pid)) _ pid
               Hpaused eq_refl).
    simpl. rewrite Hcont. reflexivity. }
  split; [exact Hplaying|]. split.
  { rewrite (stop_playback_signals (started pid) _ pid eq_refl Hpid).
    simpl. rewrite Hterm. reflexivity. }
  split; [reflexivity|]. split.
  { apply pause_playback_refused. reflexivity. }
  unfold record_event. simpl. rewrite <- !app_assoc. reflexivity.
Qed.

(** X3. In every state reached from a new controller by any sequence of
    calls, on any system, [is_playing] holds exactly when a pid is stored,
    and the pid stored is the pid of the [Popen] object kept in
    [process]. *)
Theorem playing_iff_pid_stored (os : list op) (e : Env World) :
  exists self e',
    calls os init e = (Returns self, e')
    /\ (is_playing self = true <-> afplay_pid self <> None)
    /\ (forall p, afplay_pid self = Some p -> process self = Some p).
Proof.
  destruct (calls_preserve
              (fun c => (is_playing c = true <-> afplay_pid c <> None)
                        /\ (forall p, afplay_pid c = Some p -> process c = Some p))
              (fun _ => True))
    with (os := os) (self := init) (e := e)
    as (self & e' & Hcalls & Hinv).
  - intros o c e0 b c' e0' _ [Hc1 Hc2] Hcall.
    destruct (call_cases _ _ _ _ _ _ Hcall)
      as [[_ ->]|[(_ & f & p & _ & ->)|[(_ & _ & _ & ->)
          |[(_ & _ & _ & ->)|(_ & _ & ->)]]]]; simpl; try tauto.
    + split; [split; [discriminate | reflexivity]|]. intros q [= ->]. reflexivity.
    + split; [split; [discriminate | congruence]|]. discriminate.
  - apply Forall_forall. intros; exact I.
  - simpl. split; [split; [discriminate | congruence]|]. discriminate.
  - exists self, e'. tauto.
Qed.

End TTSFurther.

(** ** VoiceInterruptController: what is signalled, and what escapes *)

Section VoiceFurther.
Context {World : Type} `{OS World}.
Import Voice.

(** The three methods start alike: one [pgrep], then the loop on what it
    found. *)
Lemma round_unfold {A} (sig : signal) (k : Z -> M World A) (e : Env World) :
  bind find_audio_processes
    (fun audio_processes =>
       bind (for_in audio_processes (signal_and_count sig) 0) k) e
  = match for_in (fst (discovery (world e))) (signal_and_count sig) 0
            (record_event (EvRun ["pgrep"; "afplay"])
               (snd (discovery (world e))) e) with
    | (Returns count, e1) => k count e1
    | (Raises x, e1) => (Raises x, e1)
    end.
Proof.
  unfold bind at 1. rewrite find_audio_processes_discovery. reflexivity.
Qed.

(** Whatever the system answers, the loop signals a prefix of the pids, in
    order, with its signal; all of them when it returns. *)
Lemma for_in_signal_trace (sig : signal) (pids : list Z) (count : Z)
    (e : Env World) :
  exists sent,
    sent `prefix_of` pids
    /\ trace (snd (for_in pids (signal_and_count sig) count e))
       = (trace e ++ List.map (fun pid => EvKill pid sig) sent)%list
    /\ (forall c, fst (for_in pids (signal_and_count sig) count e) = Returns c ->
        sent = pids).
Proof.
  revert count e. induction pids as [|pid pids IH]; intros count e.
  - exists []. simpl. rewrite app_nil_r. auto.
  - simpl. unfold bind. rewrite signal_and_count_result.
    destruct (fst (sys_kill pid sig (world e))) as [x|].
    + destruct (is_OSError x).
      * destruct (IH count (record_event (EvKill pid sig)
                              (snd (sys_kill pid sig (world e))) e))
          as (sent & Hpre & Htrace & Hall).
        exists (pid :: sent). split; [apply prefix_cons, Hpre|].
        split; [rewrite Htrace; simpl; rewrite <- app_assoc; reflexivity|].
        intros c Hc. f_equal. eapply Hall, Hc.
      * exists [pid]. split; [apply prefix_cons, prefix_nil|].
        split; [reflexivity | discriminate].
    + destruct (IH (count + 1) (record_event (EvKill pid sig)
                                  (snd (sys_kill pid sig (world e))) e))
        as (sent & Hpre & Htrace & Hall).
      exists (pid :: sent). split; [apply prefix_cons, Hpre|].
      split; [rewrite Htrace; simpl; rewrite <- app_assoc; reflexivity|].
      intros c Hc. f_equal. eapply Hall, Hc.
Qed.

(** The system calls of [pause_all_audio] and [resume_all_audio], whatever
    the system answers: one [pgrep], then signals to a prefix of its pids. *)
Lemma pause_resume_trace (e : Env World) :
  (exists sent,
      sent `prefix_of` fst (discovery (world e))
      /\ trace (snd (pause_all_audio e))
         = (trace e ++ EvRun ["pgrep"; "afplay"]
              :: List.map (fun pid => EvKill pid SIGSTOP) sent)%list)
  /\ (exists sent,
        sent `prefix_of` fst (discovery (world e))
        /\ trace (snd (resume_all_audio e))
           = (trace e ++ EvRun ["pgrep"; "afplay"]
                :: List.map (fun pid => EvKill pid SIGCONT) sent)%list).
Proof.
  pose (e0 := record_event (EvRun ["pgrep"; "afplay"])
                (snd (discovery (world e))) e).
  split.
  - destruct (for_in_signal_trace SIGSTOP (fst (discovery (world e))) 0 e0)
      as (sent & Hpre & Htrace & _).
    exists sent. split; [exact Hpre|].
    unfold pause_all_audio. rewrite round_unfold. fold e0.
    destruct (for_in _ _ 0 e0) as [[count|x] e1]; simpl in *;
      rewrite Htrace, <- app_assoc; reflexivity.
  - destruct (for_in_signal_trace SIGCONT (fst (discovery (world e))) 0 e0)
      as (sent & Hpre & Htrace & _).
    exists sent. split; [exact Hpre|].
    unfold resume_all_audio. rewrite round_unfold. fold e0.
    destruct (for_in _ _ 0 e0) as [[count|x] e1]; simpl in *;
      rewrite Htrace, <- app_assoc; reflexivity.
Qed.

(** X4. Whatever the system answers, [stop_all_audio], [pause_all_audio] and
    [resume_all_audio] run [pgrep] once and then signal only pids that
    [pgrep] reported, in the order reported and without skipping one, each
    with the signal of the method ([SIGTERM], [SIGSTOP], [SIGCONT]); a
    method that returns has signalled every pid reported. The only other
    system calls are the [killall] sweeps of [stop_all_audio]. *)
Theorem all_audio_signal_only_discovered (sig : signal) (m : M World bool)
    (e : Env World) :
  In (sig, m) [(SIGTERM, stop_all_audio); (SIGSTOP, pause_all_audio);
               (SIGCONT, resume_all_audio)] ->
  exists sent sweeps,
    sent `prefix_of` fst (discovery (world e))
    /\ trace (snd (m e))
       = (trace e ++ EvRun ["pgrep"; "afplay"]
            :: List.map (fun pid => EvKill pid sig) sent ++ sweeps)%list
    /\ Forall (fun ev => exists name, ev = EvRun ["killall"; name]) sweeps
    /\ (sig <> SIGTERM -> sweeps = [])
    /\ (forall b, fst (m e) = Returns b -> sent = fst (discovery (world e))).
Proof.
  intros Hin. simpl in Hin.
  pose (e0 := record_event (EvRun ["pgrep"; "afplay"])
                (snd (discovery (world e))) e).
  destruct (for_in_signal_trace sig (fst (discovery (world e))) 0 e0)
    as (sent & Hpre & Htrace & Hall).
  destruct Hin as [[= <- <-]|[[= <- <-]|[[= <- <-]|[]]]].
  - unfold stop_all_audio. rewrite round_unfold. fold e0.
    destruct (for_in _ _ 0 e0) as [[count|x] e1] eqn:Hloop; simpl in *.
    + unfold bind at 1.
      destruct (sweep_returns e1) as (rest & w' & -> & Hrest).
      exists sent, (EvRun ["killall"; "afplay"] :: rest).
      split; [exact Hpre|]. split.
      { unfold ret. simpl. rewrite Htrace. rewrite <- !app_assoc. reflexivity. }
      split.
      { constructor; [eauto|]. destruct Hrest as [tl Htl].
        assert (Hsub : Forall (fun ev => exists name, ev = EvRun ["killall"; name])
                         (rest ++ tl)).
        { rewrite <- Htl. repeat constructor; eauto. }
        apply Forall_app in Hsub. tauto. }
      split; [congruence|]. intros b _. eapply Hall. reflexivity.
    + exists sent, []. split; [exact Hpre|].
      split; [rewrite Htrace, app_nil_r, <- app_assoc; reflexivity|].
      split; [constructor|]. split; [reflexivity | discriminate].
  - unfold pause_all_audio. rewrite round_unfold. fold e0.
    destruct (for_in _ _ 0 e0) as [[count|x] e1] eqn:Hloop; simpl in *;
      exists sent, []; (split; [exact Hpre|]);
      (split; [rewrite Htrace, app_nil_r, <- app_assoc; reflexivity|]);
      (split; [constructor|]); (split; [reflexivity|]).
    + intros b _. eapply Hall. reflexivity.
    + discriminate.
  - unfold resume_all_audio. rewrite round_unfold. fold e0.
    destruct (for_in _ _ 0 e0) as [[count|x] e1] eqn:Hloop; simpl in *;
      exists sent, []; (split; [exact Hpre|]);
      (split; [rewrite Htrace, app_nil_r, <- app_assoc; reflexivity|]);
      (split; [constructor|]); (split; [reflexivity|]).
    + intros b _. eapply Hall. reflexivity.
    + discriminate.
Qed.

(** The loop stops at the first signal that fails with something else than
    an [OSError]: the exception leaves the loop and the pids after it are not
    signalled. *)
Lemma for_in_signal_fault (sig : signal) (ok later : list (Z * option exn))
    (pid : Z) (x : exn) (pids : list Z) (count : Z) (e : Env World) :
  attempts sig pids (world e) = (ok ++ (pid, Some x) :: later)%list ->
  tolerated ok = true -> is_OSError x = false ->
  exists e',
    for_in pids (signal_and_count sig) count e = (Raises x, e')
    /\ trace e' = (trace e ++ List.map (fun p => EvKill p sig)
                                (List.map fst ok ++ [pid]))%list.
Proof.
  revert pids count e. induction ok as [|[q r] ok IH]; intros pids count e.
  - destruct pids as [|p pids]; [discriminate|]. simpl.
    destruct (sys_kill p sig (world e)) as [r w] eqn:Hk.
    intros [= -> -> _] _ Hx.
    unfold bind. rewrite signal_and_count_result, Hk. simpl. rewrite Hx.
    eexists. split; reflexivity.
  - destruct pids as [|p pids]; [discriminate|]. simpl.
    destruct (sys_kill p sig (world e)) as [r' w] eqn:Hk.
    intros [= -> -> Hrest] Htol Hx. simpl in Htol.
    apply andb_true_iff in Htol as [Hr Htol].
    unfold bind. rewrite signal_and_count_result, Hk. simpl.
    destruct r as [y|]; simpl in Hr.
    + rewrite Hr.
      destruct (IH pids count (record_event (EvKill q sig) w e) Hrest Htol Hx)
        as (e' & -> & Htrace).
      eexists. split; [reflexivity|]. rewrite Htrace. simpl.
      rewrite <- app_assoc. reflexivity.
    + destruct (IH pids (count + 1) (record_event (EvKill q sig) w e)
                  Hrest Htol Hx) as (e' & -> & Htrace).
      eexists. split; [reflexivity|]. rewrite Htrace. simpl.
      rewrite <- app_assoc. reflexivity.
Qed.

(** X5. Only [OSError] is caught around [os.kill]. When a signal of the
    round fails with another exception (the signals before it delivered or
    failed with an [OSError]), the method raises that exception: the pids
    after it are not signalled and [stop_all_audio] does not run its
    [killall] sweep. *)
Theorem all_audio_other_exception_escapes (sig : signal) (m : M World bool)
    (e : Env World) (ok later : list (Z * option exn)) (pid : Z) (x : exn) :
  In (sig, m) [(SIGTERM, stop_all_audio); (SIGSTOP, pause_all_audio);
               (SIGCONT, resume_all_audio)] ->
  attempts sig (fst (discovery (world e))) (snd (discovery (world e)))
  = (ok ++ (pid, Some x) :: later)%list ->
  tolerated ok = true -> is_OSError x = false ->
  exists e',
    m e = (Raises x, e')
    /\ trace e' = (trace e ++ EvRun ["pgrep"; "afplay"]
                     :: List.map (fun p => EvKill p sig)
                          (List.map fst ok ++ [pid]))%list.
Proof.
  intros Hin Hatt Htol Hx.
  pose (e0 := record_event (EvRun ["pgrep"; "afplay"])
                (snd (discovery (world e))) e).
  destruct (for_in_signal_fault sig ok later pid x
              (fst (discovery (world e))) 0 e0 Hatt Htol Hx)
    as (e' & Hloop & Htrace).
  exists e'. simpl in Hin.
  destruct Hin as [[= <- <-]|[[= <- <-]|[[= <- <-]|[]]]].
  - unfold stop_all_audio. rewrite round_unfold. fold e0. rewrite Hloop.
    split; [reflexivity|]. rewrite Htrace. simpl. rewrite <- app_assoc.
    reflexivity.
  - unfold pause_all_audio. rewrite round_unfold. fold e0. rewrite Hloop.
    split; [reflexivity|]. rewrite Htrace. simpl. rewrite <- app_assoc.
    reflexivity.
  - unfold resume_all_audio. rewrite round_unfold. fold e0. rewrite Hloop.
    split; [reflexivity|]. rewrite Htrace. simpl. rewrite <- app_assoc.
    reflexivity.
Qed.

End VoiceFurther.

(** ** [find_audio_processes] reads what [pgrep] prints *)

Section PgrepFacts.
Context {World : Type} `{OS World}.
Import Voice.













End PgrepFacts.

(** ** [fast_read]: what reaches the speech synthesis *)

Section FastTTSFurther.
Import FastTTS.

Local Abbreviation chars := list_ascii_of_string.

Lemma chars_append (a b : string) : chars (a ++ b) = (chars a ++ chars b)%list.
Proof.
  induction a as [|c a IH]; [reflexivity|].
  rewrite append_cons. simpl. rewrite IH. reflexivity.
Qed.

Lemma prefix_empty (s : string) : String.prefix "" s = true.
Proof. destruct s; reflexivity. Qed.

Lemma replace_from_cons (old new : string) (skip : nat) (d : ascii) (s : string) :
  Py.replace_from old new skip (String d s)
  = match skip with
    | S k => Py.replace_from old new k s
    | O =>
        if String.prefix old (String d s)
        then new ++ Py.replace_from old new (String.length old - 1) s
        else String d (Py.replace_from old new 0 s)
    end.
Proof. reflexivity. Qed.

(** [replace] brings in no character that is not in the text or in [new]. *)
Lemma replace_from_chars (old new : string) (c : ascii) (s : string) (skip : nat) :
  In c (chars (Py.replace_from old new skip s)) ->
  In c (chars s) \/ In c (chars new).
Proof.
  revert skip. induction s as [|d s IH]; intros skip; [simpl; tauto|].
  rewrite replace_from_cons. destruct skip as [|k].
  - destruct (String.prefix old (String d s)).
    + rewrite chars_append, in_app_iff. intros [Hc|Hc]; [tauto|].
      destruct (IH _ Hc); simpl; tauto.
    + simpl. intros [Hc|Hc]; [tauto|]. destruct (IH _ Hc); tauto.
  - intros Hc. destruct (IH _ Hc); simpl; tauto.
Qed.

(** [replace] of one character leaves no occurrence of it, unless [new]
    brings one. *)
Lemma replace_char_chars (o : ascii) (new : string) (c : ascii) (s : string) :
  In c (chars (Py.replace (String o "") new s)) ->
  (In c (chars s) /\ c <> o) \/ In c (chars new).
Proof.
  unfold Py.replace. simpl. induction s as [|d s IH]; simpl; [tauto|].
  destruct (ascii_dec o d) as [->|Hne].
  - rewrite prefix_empty, chars_append, in_app_iff.
    intros [Hc|Hc]; [tauto|]. destruct (IH Hc); tauto.
  - simpl. intros [<-|Hc]; [left; split; [tauto | congruence]|].
    destruct (IH Hc); tauto.
Qed.

(** [replace] changes nothing in a text without the first character of
    [old]. *)
Lemma replace_absent (o : ascii) (rest new s : string) :
  ~ In o (chars s) -> Py.replace (String o rest) new s = s.
Proof.
  unfold Py.replace. simpl. induction s as [|d s IH]; simpl; [reflexivity|].
  intros Hno. destruct (ascii_dec o d) as [->|Hne]; [tauto|].
  rewrite IH by tauto. reflexivity.
Qed.

Lemma take_chars (n : nat) (s : string) (c : ascii) :
  In c (chars (Py.take n s)) -> In c (chars s).
Proof.
  unfold Py.take. revert s. induction n as [|n IH]; intros [|d s]; simpl; try tauto.
  intros [Hc|Hc]; [tauto|]. right. apply IH, Hc.
Qed.

Lemma take_length_le (n : nat) (s : string) :
  (String.length (Py.take n s) <= n)%nat.
Proof.
  unfold Py.take. revert s. induction n as [|n IH]; intros [|d s]; simpl; try lia.
  specialize (IH s). lia.
Qed.

(** The characters of the cleaned text: none of [#], [*], [-]. *)
Lemma clean_for_speech_chars (content : string) (c : ascii) :
  In c (chars (clean_for_speech content)) ->
  c <> "#"%char /\ c <> "*"%char /\ c <> "-"%char.
Proof.
  unfold clean_for_speech. intros Hc.
  apply replace_char_chars in Hc as [[Hc Hminus]|Hc];
    [|simpl in Hc; destruct Hc as [<-|[]]; repeat split; discriminate].
  apply replace_char_chars in Hc as [[Hc Hstar]|[]].
  apply replace_char_chars in Hc as [[Hc Hhash]|[]].
  tauto.
Qed.

(** X7. The text handed to the speech synthesis never holds one of the
    characters [#], [*] and [-]: the clean-up removes them and neither the
    code-block wording nor the truncation marker brings one back. *)
Theorem fast_read_input_has_no_markup (content input : string) :
  fast_read_input content = Some input ->
  forall c, In c (chars input) ->
            c <> "#"%char /\ c <> "*"%char /\ c <> "-"%char.
Proof.
  unfold fast_read_input, truncate_for_tts.
  destruct (Py.is_empty (Py.strip content)); [discriminate|].
  destruct (max_chunk_size <? String.length (clean_for_speech content))%nat;
    intros [= <-] c Hc.
  - rewrite chars_append in Hc. apply in_app_iff in Hc as [Hc|Hc].
    + apply take_chars in Hc. eapply clean_for_speech_chars, Hc.
    + vm_compute in Hc.
      repeat (destruct Hc as [<-|Hc]; [repeat split; discriminate|]).
      destruct Hc.
  - eapply clean_for_speech_chars, Hc.
Qed.

(** X8. The text handed to the speech synthesis has at most 4039
    characters (4000 and the marker), whatever the length of the file: it
    stays below the limit of 4096 characters noted in the source. *)
Theorem fast_read_input_is_bounded (content input : string) :
  fast_read_input content = Some input ->
  (String.length input <= max_chunk_size + 39)%nat
  /\ (String.length input < 4096)%nat.
Proof.
  unfold fast_read_input, truncate_for_tts.
  destruct (Py.is_empty (Py.strip content)); [discriminate|].
  destruct (max_chunk_size <? String.length (clean_for_speech content))%nat eqn:Hlen;
    intros [= <-].
  - rewrite length_append.
    pose proof (take_length_le max_chunk_size (clean_for_speech content)) as Hle.
    change (String.length truncation_marker) with 39%nat.
    unfold max_chunk_size in *. lia.
  - apply Nat.ltb_ge in Hlen. unfold max_chunk_size in *. lia.
Qed.

(** X9. A text that holds none of [`], [#], [*] and [-] goes through the
    clean-up unchanged; so, when it is not blank, it is submitted as it is if
    it has at most 4000 characters, and cut to its own first 4000 characters
    and the marker if it is longer. *)
Theorem fast_read_input_of_plain_text (content : string) :
  (forall c, In c (chars content) ->
             c <> "`"%char /\ c <> "#"%char /\ c <> "*"%char /\ c <> "-"%char) ->
  Py.is_empty (Py.strip content) = false ->
  clean_for_speech content = content
  /\ ((String.length content <= max_chunk_size)%nat ->
      fast_read_input content = Some content)
  /\ ((max_chunk_size < String.length content)%nat ->
      fast_read_input content
      = Some (Py.take max_chunk_size content ++ truncation_marker)).
Proof.
  intros Hplain Hblank.
  assert (Hclean : clean_for_speech content = content).
  { unfold clean_for_speech.
    rewrite (replace_absent "`" "``") by (intros Hc; apply Hplain in Hc; tauto).
    rewrite (replace_absent "#" "") by (intros Hc; apply Hplain in Hc; tauto).
    rewrite (replace_absent "*" "") by (intros Hc; apply Hplain in Hc; tauto).
    rewrite (replace_absent "-" "") by (intros Hc; apply Hplain in Hc; tauto).
    reflexivity. }
  split; [exact Hclean|].
  unfold fast_read_input, truncate_for_tts. rewrite Hblank, Hclean.
  split; intros Hlen.
  - apply Nat.ltb_ge in Hlen. rewrite Hlen. reflexivity.
  - apply Nat.ltb_lt in Hlen. rewrite Hlen. reflexivity.
Qed.

Lemma lstrip_cases (s : string) :
  (Py.lstrip s = "" /\ forallb Py.isspace (chars s) = true)
  \/ (exists c r, Py.lstrip s = String c r /\ Py.isspace c = false
                  /\ forallb Py.isspace (chars s) = false).
Proof.
  induction s as [|c s IH]; simpl; [left; tauto|].
  destruct (Py.isspace c) eqn:Hc; simpl; [exact IH|].
  right. exists c, s. tauto.
Qed.

Lemma rstrip_keeps_first (c : ascii) (s : string) :
  Py.isspace c = false -> Py.is_empty (Py.rstrip (String c s)) = false.
Proof.
  intros Hc. simpl. destruct (Py.rstrip s); [rewrite Hc|]; reflexivity.
Qed.

(** X10. [fast_read] gives up before the speech synthesis exactly for the
    files that hold white space only (the empty file among them); every
    other file is submitted. *)
Theorem fast_read_input_none_iff_blank (content : string) :
  fast_read_input content = None
  <-> forallb Py.isspace (chars content) = true.
Proof.
  unfold fast_read_input, Py.strip.
  destruct (lstrip_cases content) as [[-> Hall]|(c & r & -> & Hc & Hnot)].
  - simpl. tauto.
  - rewrite (rstrip_keeps_first c r Hc), Hnot. split; discriminate.
Qed.

End FastTTSFurther.

(** ** TTSControlGUI: the window and its controller *)

Section TTSControlGUIFacts.
Context {World : Type} `{OS World}.
Import TTSControlGUI.












End TTSControlGUIFacts.

Section TTSControlGUIFurther.
Context {World : Type} `{OS World}.
Import TTSControlGUI.

(** X12. Two clicks on the play/pause button of a playing session whose
    process takes both signals: the first one suspends it and the window
    reads Resume / Paused with the progress bar stopped, the second one
    continues it and the window reads Pause / Playing with the bar running;
    the controller is back as it was, and a window that read Pause / Playing
    before is the same window after. The system calls are the two
    signals. *)
Theorem toggle_twice_restores (g : t) (e : Env World) (pid : Z) :
  TTS.in_state (controller g) TTS.PLAYING = true ->
  afplay_pid (controller g) = Some pid ->
  fst (sys_kill pid SIGSTOP (world e)) = None ->
  fst (sys_kill pid SIGCONT (snd (sys_kill pid SIGSTOP (world e)))) = None ->
  exists g1 e1 g2 e2,
    toggle_play_pause g e = (Returns g1, e1)
    /\ btn_text (play_pause_btn g1) = resume_text
    /\ status_label g1 = paused_label
    /\ progress g1 = false
    /\ TTS.in_state (controller g1) TTS.PAUSED = true
    /\ toggle_play_pause g1 e1 = (Returns g2, e2)
    /\ controller g2 = controller g
    /\ btn_text (play_pause_btn g2) = pause_text
    /\ status_label g2 = playing_label
    /\ progress g2 = true
    /\ trace e2 = (trace e ++ [EvKill pid SIGSTOP; EvKill pid SIGCONT])%list
    /\ (btn_text (play_pause_btn g) = pause_text ->
        status_label g = playing_label -> progress g = true -> g2 = g).
Proof.
  intros Hs Hpid Hstop Hcont.
  assert (Hnp : is_paused (controller g) = false).
  { unfold TTS.in_state in Hs. apply andb_true_iff in Hs as [_ Hs].
    apply negb_true_iff in Hs. exact Hs. }
  assert (Hps : TTS.in_state (TTS.with_paused true (controller g)) TTS.PAUSED = true).
  { unfold TTS.in_state, TTS.tracked in *. simpl.
    apply andb_true_iff in Hs as [-> _]. reflexivity. }
  assert (Hback : TTS.with_paused false (TTS.with_paused true (controller g))
                  = controller g).
  { destruct (controller g) as [p pl pa pr]. simpl in Hnp. subst pa. reflexivity. }
  unfold toggle_play_pause at 1. rewrite Hnp. unfold bind.
  rewrite (pause_playback_signals _ _ pid Hs Hpid), Hstop. simpl.
  do 4 eexists. split; [reflexivity|]. simpl.
  do 4 (split; [first [reflexivity | exact Hps]|]).
  unfold toggle_play_pause. simpl. unfold bind.
  rewrite (resume_playback_signals _ _ pid Hps Hpid). simpl.
  rewrite Hcont. simpl. rewrite Hback.
  split; [reflexivity|]. simpl.
  do 4 (split; [reflexivity|]).
  split; [rewrite <- app_assoc; reflexivity|].
  intros Htext Hstatus Hprog. destruct g as [c a f [bt bc] st pr rt].
  simpl in *. subst. reflexivity.
Qed.

(** A destroyed window handles no event. *)
Lemma mainloop_closed (events : list gui_event) (g : t) (e : Env World) :
  root g = false -> Tk.mainloop handle events g e = (g, e).
Proof.
  intros Hroot. induction events as [|ev events IH]; [reflexivity|].
  simpl. unfold handle at 1. rewrite Hroot. exact IH.
Qed.

(** X13. A click on Stop (or on the close box) ends the window whatever
    [stop_playback] returns: the window is destroyed, at most one [SIGTERM]
    has been sent, to the stored pid, and no later event makes a system call
    or changes anything. *)
Theorem stop_click_ends_the_window
    (events : list gui_event) (g : t) (e : Env World) :
  root g = true ->
  exists g' e',
    Tk.mainloop handle (ClickStop :: events) g e = (g', e')
    /\ root g' = false
    /\ (trace e' = trace e
        \/ exists pid, afplay_pid (controller g) = Some pid
                       /\ trace e' = (trace e ++ [EvKill pid SIGTERM])%list).
Proof.
  intros Hroot. simpl. unfold handle at 1. rewrite Hroot.
  unfold Tk.callback. simpl. unfold stop_and_close, bind.
  destruct (TTS.in_state (controller g) TTS.IDLE) eqn:Hs.
  - rewrite stop_playback_refused by exact Hs. simpl.
    rewrite mainloop_closed by reflexivity.
    do 2 eexists. split; [reflexivity|]. split; [reflexivity | left; reflexivity].
  - simpl in Hs. apply negb_false_iff in Hs.
    destruct (afplay_pid (controller g)) as [pid|] eqn:Hpid; [|discriminate].
    simpl in Hs. apply negb_true_iff, Z.eqb_neq in Hs.
    rewrite (stop_playback_signals _ _ pid Hpid Hs). simpl.
    rewrite mainloop_closed by reflexivity.
    do 2 eexists. split; [reflexivity|]. split; [reflexivity|].
    right. exists pid. split; reflexivity.
Qed.


End TTSControlGUIFurther.

(** ** VoiceInterruptGUI *)

Section VoiceInterruptGUIFurther.
Context {World : Type} `{OS World}.
Import VoiceInterruptGUI.

Lemma interrupt_on_event_shows (ev : gui_event) (g : t) (e : Env World) g' e' :
  Shows.interrupt g -> on_event ev g e = (Returns g', e') -> Shows.interrupt g'.
Proof.
  intros [Hbtn Hact] Hev.
  destruct ev; simpl in Hev;
    try (injection Hev as <- <-; split; [exact Hbtn | simpl; congruence]).
  1, 2: unfold emergency_stop, bind in Hev;
    destruct (Voice.stop_all_audio e) as [[[|]|x] e1]; try discriminate;
    injection Hev as <- <-; split; assumption.
  - unfold toggle_pause in Hev.
    destruct (is_paused g) eqn:Hp; unfold bind in Hev.
    + destruct (Voice.resume_all_audio e) as [[[|]|x] e1]; try discriminate;
        injection Hev as <- <-; [split; [reflexivity | exact Hact]|].
      split; [rewrite Hp; exact Hbtn | exact Hact].
    + destruct (Voice.pause_all_audio e) as [[[|]|x] e1]; try discriminate;
        injection Hev as <- <-; [split; [reflexivity | exact Hact]|].
      split; [rewrite Hp; exact Hbtn | exact Hact].
  - unfold check_audio in Hev. destruct (conversation_active g) eqn:Hca.
    + unfold bind in Hev.
      destruct (Voice.find_audio_processes e) as [[l|x] e1]; try discriminate.
      injection Hev as <- <-. split; [exact Hbtn | simpl; congruence].
    + injection Hev as <- <-. split; [exact Hbtn | congruence].
Qed.

(** X15. The interrupt window keeps its pause button in step with its own
    pause flag: after [__init__] and any sequence of clicks, keys, scheduled
    resets and monitor rounds, on any system and also when a callback
    raises, the button reads Resume exactly when [is_paused] is set, and the
    monitor flag [conversation_active] is set exactly while the window
    exists. *)
Theorem interrupt_window_button_follows_flag
    (events : list gui_event) (e : Env World) :
  forall g, g = fst (Tk.mainloop handle events init e) ->
    (pause_btn g = resume_text <-> is_paused g = true)
    /\ (pause_btn g = pause_text <-> is_paused g = false)
    /\ conversation_active g = root g.
Proof.
  assert (Hloop : forall g0 e0, Shows.interrupt g0 ->
                    Shows.interrupt (fst (Tk.mainloop handle events g0 e0))).
  { induction events as [|ev evs IH]; intros g0 e0 Hg0; [exact Hg0|].
    simpl. destruct (handle ev g0 e0) as [g1 e1] eqn:Hh. apply IH.
    unfold handle in Hh. destruct (root g0); [|injection Hh as <- <-; exact Hg0].
    unfold Tk.callback in Hh.
    destruct (on_event ev g0 e0) as [[g2|x] e2] eqn:Hev;
      injection Hh as <- <-; [|exact Hg0].
    eapply interrupt_on_event_shows; eassumption. }
  intros g ->.
  destruct (Hloop init e) as [Hbtn Hact]; [split; reflexivity|].
  rewrite Hbtn. split; [|split; [|exact Hact]];
    destruct (is_paused _); split; intros Hx; try reflexivity; discriminate.
Qed.

(** X16. A click on Pause sends [SIGCONT] when the window counts itself
    paused and [SIGSTOP] otherwise, after one [pgrep] and only to pids that
    [pgrep] reported. When the failures of the round are [OSError]s, the
    pause flag flips if at least one signal was delivered, and the window
    is left exactly as it was if none was (no player found, or all gone). *)
Theorem pause_click_signals_by_flag (g : t) (e : Env World) :
  root g = true ->
  let sig := if is_paused g then SIGCONT else SIGSTOP in
  let pids := fst (Voice.discovery (world e)) in
  let round := Voice.attempts sig pids (snd (Voice.discovery (world e))) in
  (exists sent,
      sent `prefix_of` pids
      /\ trace (snd (handle ClickPause g e))
         = (trace e ++ EvRun ["pgrep"; "afplay"]
              :: List.map (fun pid => EvKill pid sig) sent)%list)
  /\ (Voice.tolerated round = true ->
      (Voice.delivered round <> [] ->
       is_paused (fst (handle ClickPause g e)) = negb (is_paused g))
      /\ (Voice.delivered round = [] -> fst (handle ClickPause g e) = g)).
Proof.
  intros Hroot sig pids round.
  unfold handle. rewrite Hroot. unfold Tk.callback. simpl.
  unfold toggle_pause. subst sig round pids.
  destruct (all_audio_results e) as (_ & Hpause & Hresume).
  destruct (is_paused g) eqn:Hp; unfold bind.
  - split.
    + destruct (proj2 (pause_resume_trace e)) as (sent & Hpre & Htrace).
      exists sent. split; [exact Hpre|]. rewrite <- Htrace.
      destruct (Voice.resume_all_audio e) as [[[|]|x] e1]; reflexivity.
    + intros Htol. destruct (Hresume Htol) as [e1 ->].
      destruct (Voice.delivered
                  (Voice.attempts SIGCONT (fst (Voice.discovery (world e)))
                     (snd (Voice.discovery (world e))))) as [|p l]; simpl.
      * split; [intros Hx; congruence | reflexivity].
      * split; [reflexivity | discriminate].
  - split.
    + destruct (proj1 (pause_resume_trace e)) as (sent & Hpre & Htrace).
      exists sent. split; [exact Hpre|]. rewrite <- Htrace.
      destruct (Voice.pause_all_audio e) as [[[|]|x] e1]; reflexivity.
    + intros Htol. destruct (Hpause Htol) as [e1 ->].
      destruct (Voice.delivered
                  (Voice.attempts SIGSTOP (fst (Voice.discovery (world e)))
                     (snd (Voice.discovery (world e))))) as [|p l]; simpl.
      * split; [intros Hx; congruence | reflexivity].
      * split; [reflexivity | discriminate].
Qed.

End VoiceInterruptGUIFurther.

(** ** The hook *)

Section HookMainFurther.
Context {World : Type} `{OS World}.
Import HookMain.


End HookMainFurther.

(** * Further runs on the two systems *)

Section FurtherRuns.
Import ProcTable.
#[local] Existing Instance PidRange.os.

(** Pause, resume, stop, pause on a running player with pid 1. *)
Lemma calls_signal_only_stored_pid_witness :
  let os := [TTS.Pause; TTS.Resume; TTS.Stop; TTS.Pause] in
  let e := boot (playing [1; 2]) in
  Forall (fun o => TTS.is_start o = false) os
  /\ afplay_pid (TTS.started 1) = Some 1
  /\ (exists self' e' sent,
         TTS.calls os (TTS.started 1) e = (Returns self', e')
         /\ sent `sublist_of` os
         /\ trace e' = (trace e ++ List.map (TTSCalls.syscall 1) sent)%list
         /\ (afplay_pid self' = Some 1 \/ afplay_pid self' = None))
  /\ TTS.calls os TTS.init e = (Returns TTS.init, e).
Proof.
  assert (Hos : Forall (fun o => TTS.is_start o = false)
                  [TTS.Pause; TTS.Resume; TTS.Stop; TTS.Pause])
    by (repeat constructor).
  split; [exact Hos|]. split; [reflexivity|]. split.
  - apply (proj1 (calls_signal_only_stored_pid _ (TTS.started 1)
                    (boot (playing [1; 2])) Hos) 1 eq_refl).
  - apply (proj2 (calls_signal_only_stored_pid _ TTS.init
                    (boot (playing [1; 2])) Hos) eq_refl).
Defined.

Lemma session_life_cycle_witness :
  let e := boot empty in
  let w1 := snd (sys_popen ["afplay"; "notes.mp3"] (world e)) in
  let w2 := snd (sys_kill 1 SIGSTOP w1) in
  let w3 := snd (sys_kill 1 SIGCONT w2) in
  let w4 := snd (sys_kill 1 SIGTERM w3) in
  sys_popen ["afplay"; "notes.mp3"] (world e) = (inr 1, w1)
  /\ sys_kill 1 SIGSTOP w1 = (None, w2)
  /\ sys_kill 1 SIGCONT w2 = (None, w3)
  /\ sys_kill 1 SIGTERM w3 = (None, w4)
  /\ exists c1 e1 c2 e2 c3 e3 c4 e4,
       TTS.start_playback TTS.init "notes.mp3" e = (Returns (true, c1), e1)
       /\ TTS.in_state c1 TTS.PLAYING = true
       /\ TTS.pause_playback c1 e1 = (Returns (true, c2), e2)
       /\ TTS.in_state c2 TTS.PAUSED = true
       /\ TTS.resume_playback c2 e2 = (Returns (true, c3), e3)
       /\ TTS.in_state c3 TTS.PLAYING = true
       /\ TTS.stop_playback c3 e3 = (Returns (true, c4), e4)
       /\ TTS.in_state c4 TTS.STOPPED = true
       /\ TTS.pause_playback c4 e4 = (Returns (false, c4), e4)
       /\ e4 = {| world := w4;
                  trace := (trace e ++ [EvPopen ["afplay"; "notes.mp3"];
                                         EvKill 1 SIGSTOP; EvKill 1 SIGCONT;
                                         EvKill 1 SIGTERM])%list |}.
Proof.
  intros e w1 w2 w3 w4.
  repeat (split; [vm_compute; reflexivity|]).
  apply (session_life_cycle "notes.mp3" e 1 w1 w2 w3 w4);
    [discriminate | vm_compute; reflexivity ..].
Defined.

Lemma playing_iff_pid_stored_witness :
  exists self e',
    TTS.calls [TTS.Start "notes.mp3"; TTS.Pause; TTS.Stop] TTS.init
      (boot empty) = (Returns self, e')
    /\ is_playing self = false
    /\ afplay_pid self = None.
Proof.
  destruct (playing_iff_pid_stored [TTS.Start "notes.mp3"; TTS.Pause; TTS.Stop]
              (boot empty)) as (self & e' & Hcalls & Hiff & _).
  exists self, e'. split; [exact Hcalls|].
  vm_compute in Hcalls. injection Hcalls as <- _. split; reflexivity.
Defined.

Lemma all_audio_signal_only_discovered_witness :
  let e := boot (playing [7; 12]) in
  In (SIGTERM, Voice.stop_all_audio)
    [(SIGTERM, Voice.stop_all_audio); (SIGSTOP, Voice.pause_all_audio);
     (SIGCONT, Voice.resume_all_audio)]
  /\ exists sent sweeps,
       sent `prefix_of` fst (Voice.discovery (world e))
       /\ trace (snd (Voice.stop_all_audio e))
          = (trace e ++ EvRun ["pgrep"; "afplay"]
               :: List.map (fun pid => EvKill pid SIGTERM) sent ++ sweeps)%list
       /\ Forall (fun ev => exists name, ev = EvRun ["killall"; name]) sweeps
       /\ (SIGTERM <> SIGTERM -> sweeps = [])
       /\ (forall b, fst (Voice.stop_all_audio e) = Returns b ->
           sent = fst (Voice.discovery (world e))).
Proof.
  split; [left; reflexivity|].
  apply (all_audio_signal_only_discovered SIGTERM Voice.stop_all_audio
           (boot (playing [7; 12]))).
  left; reflexivity.
Defined.

(** [pgrep] prints a pid that is no C [int] between two pids that are:
    the second signal raises [OverflowError], the third is not sent. *)
Lemma all_audio_other_exception_escapes_witness :
  let e := PidRange.boot [7; 99999999999; 12] in
  Voice.attempts SIGSTOP (fst (Voice.discovery (world e)))
    (snd (Voice.discovery (world e)))
  = ([(7, Some ProcessLookupError)]
       ++ (99999999999, Some OverflowError) :: [(12, Some ProcessLookupError)])%list
  /\ exists e',
       Voice.pause_all_audio e = (Raises OverflowError, e')
       /\ trace e' = (trace e ++ EvRun ["pgrep"; "afplay"]
                        :: List.map (fun p => EvKill p SIGSTOP)
                             (List.map fst [(7, Some ProcessLookupError)]
                                ++ [99999999999]))%list.
Proof.
  split; [vm_compute; reflexivity|].
  apply (all_audio_other_exception_escapes SIGSTOP Voice.pause_all_audio
           (PidRange.boot [7; 99999999999; 12])
           [(7, Some ProcessLookupError)] [(12, Some ProcessLookupError)]);
    [right; left; reflexivity | vm_compute; reflexivity | reflexivity ..].
Defined.


Lemma fast_read_input_has_no_markup_witness :
  let content := "# Plan - *draft*" in
  let input := " Plan   draft" in
  FastTTS.fast_read_input content = Some input
  /\ forall c, In c (list_ascii_of_string input) ->
               c <> "#"%char /\ c <> "*"%char /\ c <> "-"%char.
Proof.
  split; [vm_compute; reflexivity|].
  apply (fast_read_input_has_no_markup "# Plan - *draft*" " Plan   draft").
  vm_compute; reflexivity.
Defined.

Lemma fast_read_input_is_bounded_witness :
  let content := Py.repeat "-" 4500 in
  let input := (Py.repeat " " 4000 ++ FastTTS.truncation_marker)%string in
  FastTTS.fast_read_input content = Some input
  /\ (String.length input <= FastTTS.max_chunk_size + 39)%nat
  /\ (String.length input < 4096)%nat.
Proof.
  split; [vm_compute; reflexivity|].
  apply (fast_read_input_is_bounded (Py.repeat "-" 4500)).
  vm_compute; reflexivity.
Defined.

Lemma fast_read_input_of_plain_text_witness :
  let content := "Read me." in
  (forall c, In c (list_ascii_of_string content) ->
             c <> "`"%char /\ c <> "#"%char /\ c <> "*"%char /\ c <> "-"%char)
  /\ Py.is_empty (Py.strip content) = false
  /\ FastTTS.clean_for_speech content = content
  /\ FastTTS.fast_read_input content = Some content.
Proof.
  assert (Hplain : forall c, In c (list_ascii_of_string "Read me.") ->
             c <> "`"%char /\ c <> "#"%char /\ c <> "*"%char /\ c <> "-"%char).
  { simpl. intros c Hc.
    repeat (destruct Hc as [<-|Hc]; [repeat split; discriminate|]).
    destruct Hc. }
  split; [exact Hplain|]. split; [reflexivity|].
  destruct (fast_read_input_of_plain_text "Read me." Hplain eq_refl)
    as (Hclean & Hshort & _).
  split; [exact Hclean|]. apply Hshort. vm_compute. lia.
Defined.

(** Two spaces, a line feed, a tab and a space. *)
Lemma fast_read_input_none_iff_blank_witness :
  let blank := String " " (String " " (String "010" (String "009" " "))) in
  forallb Py.isspace (list_ascii_of_string blank) = true
  /\ FastTTS.fast_read_input blank = None.
Proof.
  intros blank. split; [reflexivity|].
  apply (proj2 (fast_read_input_none_iff_blank blank)).
  reflexivity.
Defined.

End FurtherRuns.

Section WindowRuns.
Import ProcTable.


Lemma toggle_twice_restores_witness :
  let e := boot (playing [1]) in
  let g := TTSControlGUI.set_controller (TTS.started 1)
             (TTSControlGUI.create_widgets "notes.mp3" "notes") in
  TTS.in_state (TTSControlGUI.controller g) TTS.PLAYING = true
  /\ afplay_pid (TTSControlGUI.controller g) = Some 1
  /\ fst (sys_kill 1 SIGSTOP (world e)) = None
  /\ fst (sys_kill 1 SIGCONT (snd (sys_kill 1 SIGSTOP (world e)))) = None
  /\ exists g1 e1 e2,
       TTSControlGUI.toggle_play_pause g e = (Returns g1, e1)
       /\ TTSControlGUI.btn_text (TTSControlGUI.play_pause_btn g1)
          = TTSControlGUI.resume_text
       /\ TTSControlGUI.toggle_play_pause g1 e1 = (Returns g, e2)
       /\ trace e2 = (trace e ++ [EvKill 1 SIGSTOP; EvKill 1 SIGCONT])%list.
Proof.
  intros e g. repeat (split; [vm_compute; reflexivity|]).
  destruct (toggle_twice_restores g e 1)
    as (g1 & e1 & g2 & e2 & Ht1 & Htext & _ & _ & _ & Ht2 & _ & _ & _ & _
        & Htrace & Hsame); try (vm_compute; reflexivity).
  exists g1, e1, e2. split; [exact Ht1|]. split; [exact Htext|].
  split; [|exact Htrace].
  rewrite <- (Hsame eq_refl eq_refl eq_refl). exact Ht2.
Defined.

Lemma stop_click_ends_the_window_witness :
  let e := boot (playing [1]) in
  let g := TTSControlGUI.set_controller (TTS.started 1)
             (TTSControlGUI.create_widgets "notes.mp3" "notes") in
  TTSControlGUI.root g = true
  /\ exists g' e',
       Tk.mainloop TTSControlGUI.handle
         [TTSControlGUI.ClickStop; TTSControlGUI.ClickPlayPause;
          TTSControlGUI.ClickStop] g e = (g', e')
       /\ TTSControlGUI.root g' = false
       /\ (trace e' = trace e
           \/ exists pid,
                afplay_pid (TTSControlGUI.controller g) = Some pid
                /\ trace e' = (trace e ++ [EvKill pid SIGTERM])%list).
Proof.
  intros e g. split; [reflexivity|].
  apply (stop_click_ends_the_window
           [TTSControlGUI.ClickPlayPause; TTSControlGUI.ClickStop] g e).
  reflexivity.
Defined.


(** Pause, emergency stop, reset, pause again, on two running players. *)
Lemma interrupt_window_button_follows_flag_witness :
  let g := fst (Tk.mainloop VoiceInterruptGUI.handle
                  [VoiceInterruptGUI.ClickPause; VoiceInterruptGUI.KeySpace;
                   VoiceInterruptGUI.ResetStopButton;
                   VoiceInterruptGUI.MonitorTick]
                  VoiceInterruptGUI.init (boot (playing [7; 12]))) in
  VoiceInterruptGUI.is_paused g = true
  /\ VoiceInterruptGUI.pause_btn g = VoiceInterruptGUI.resume_text
  /\ VoiceInterruptGUI.conversation_active g = VoiceInterruptGUI.root g.
Proof.
  intros g.
  destruct (interrupt_window_button_follows_flag
              [VoiceInterruptGUI.ClickPause; VoiceInterruptGUI.KeySpace;
               VoiceInterruptGUI.ResetStopButton; VoiceInterruptGUI.MonitorTick]
              (boot (playing [7; 12])) g eq_refl) as (Hres & _ & Hact).
  assert (Hp : VoiceInterruptGUI.is_paused g = true) by (vm_compute; reflexivity).
  split; [exact Hp|]. split; [apply Hres, Hp | exact Hact].
Defined.

Lemma pause_click_signals_by_flag_witness :
  let e := boot (playing [7; 12]) in
  let g := VoiceInterruptGUI.init in
  let round := Voice.attempts SIGSTOP (fst (Voice.discovery (world e)))
                 (snd (Voice.discovery (world e))) in
  VoiceInterruptGUI.root g = true
  /\ Voice.tolerated round = true
  /\ Voice.delivered round <> []
  /\ VoiceInterruptGUI.is_paused (fst (VoiceInterruptGUI.handle
                                         VoiceInterruptGUI.ClickPause g e))
     = true
  /\ exists sent,
       sent `prefix_of` fst (Voice.discovery (world e))
       /\ trace (snd (VoiceInterruptGUI.handle VoiceInterruptGUI.ClickPause g e))
          = (trace e ++ EvRun ["pgrep"; "afplay"]
               :: List.map (fun pid => EvKill pid SIGSTOP) sent)%list.
Proof.
  intros e g round.
  assert (Htol : Voice.tolerated round = true) by (vm_compute; reflexivity).
  assert (Hdel : Voice.delivered round <> []) by (vm_compute; discriminate).
  destruct (pause_click_signals_by_flag g e eq_refl) as [Htrace Hflag].
  split; [reflexivity|]. split; [exact Htol|]. split; [exact Hdel|].
  split; [|exact Htrace].
  apply (proj1 (Hflag Htol) Hdel).
Defined.


End WindowRuns.
